(** * ParkingExit: a shallow embedding of srunner/scenarios/parking_exit.py

    The scenario parks the ego vehicle between two blocking vehicles and
    ends once the ego has driven away.  The embedding follows the Python
    source method by method.

    Conventions.
    - carla's floating-point coordinates and distances are idealised as
      exact rationals ([Q]); rounding is not modelled.  Equations between
      computed coordinates are stated with [==] ([Qeq]).
    - The simulator (map queries, actor spawning) and Python's [float]
      builtin are collaborators of the file; they are the fields of the
      class [Simulator], and every statement holds for all of its
      instances.
    - Calls that change the simulator ([request_new_actor],
      [set_location]) are recorded, oldest first, in a trace of [Event]s;
      the answer of [request_new_actor] may depend on everything that was
      called before.  A raised exception keeps the trace: what was spawned
      before the raise stays spawned. *)

From Stdlib Require Import QArith Qfield Lqa.
From stdpp Require Import base strings gmap list.

(** ** The carla value types the scenario reads and builds *)

Module carla.

Record Vector3D : Type := mkVector3D { x : Q; y : Q; z : Q }.

(** [carla.Location] derives from [carla.Vector3D]. *)
Definition Location : Type := Vector3D.

Record Rotation : Type := mkRotation { pitch : Q; yaw : Q; roll : Q }.

Record Transform : Type :=
  mkTransform { location : Location; rotation : Rotation }.

Record BoundingBox : Type :=
  mkBoundingBox { bb_location : Location; extent : Vector3D }.

(** A waypoint is an immutable value of the map; the scenario reads its
    [transform] and [lane_width]. *)
Record Waypoint : Type :=
  mkWaypoint { transform : Transform; lane_width : Q }.

(** An actor handle: the simulator's id and the bounding box of the
    blueprint.  Where the actor stands is simulator state. *)
Record Actor : Type :=
  mkActor { id : nat; bounding_box : BoundingBox }.

(** [Location.__add__]: a new location, componentwise. *)
Definition add (a b : Location) : Location :=
  mkVector3D (x a + x b) (y a + y b) (z a + z b).

(** [Vector3D.__imul__] with a scalar: every component is multiplied. *)
Definition imul (v : Vector3D) (k : Q) : Vector3D :=
  mkVector3D (x v * k) (y v * k) (z v * k).

(** [extent] is half the size of the box on each axis, the vector from
    its centre to a vertex: a box is twice [extent.y] wide. *)
Definition width (b : BoundingBox) : Q := 2 * y (extent b).

(** Squared Euclidean length. *)
Definition norm2 (v : Vector3D) : Q :=
  x v * x v + y v * y v + z v * z v.

End carla.

(** ** Python exceptions and results *)

Inductive exn : Type :=
| Exception (msg : string)
| ValueError (msg : string)
| KeyError (key : string)
| IndexError (msg : string).

Inductive Result (A : Type) : Type :=
| Ok (a : A)
| Raise (e : exn).
Arguments Ok {A} a.
Arguments Raise {A} e.

(** ** Calls into the simulator *)

Inductive Event : Type :=
| request_new_actor_call
    (model : string) (spawn_point : carla.Transform) (rolename : string)
    (attribute_filter : list (string * string)) (result : option carla.Actor)
| set_location_call (actor : carla.Actor) (l : carla.Location).

Definition Trace : Type := list Event.

(** The collaborators the file consumes. *)
Class Simulator : Type := {
  (** Python's [float(str)]: the number, or the exception it raises. *)
  float : string -> Result Q;
  (** [carla.Map.get_waypoint], projecting to the road. *)
  get_waypoint : carla.Location -> carla.Waypoint;
  (** [carla.Waypoint.get_left_lane] / [get_right_lane]: [None] when
      there is no such lane. *)
  get_left_lane : carla.Waypoint -> option carla.Waypoint;
  get_right_lane : carla.Waypoint -> option carla.Waypoint;
  (** [carla.Waypoint.next] / [previous] at a distance. *)
  next : carla.Waypoint -> Q -> list carla.Waypoint;
  previous : carla.Waypoint -> Q -> list carla.Waypoint;
  (** [carla.Transform.get_right_vector]: a fresh vector on each call. *)
  get_right_vector : carla.Transform -> carla.Vector3D;
  (** [CarlaDataProvider.request_new_actor]: the spawned actor, or
      [None]; the answer may depend on the calls made so far. *)
  spawn_answer :
    Trace -> string -> carla.Transform -> string ->
    list (string * string) -> option carla.Actor
}.

(** ** The monad of scenario code: a trace of simulator calls, and
    exceptions that keep the trace *)

Definition M (A : Type) : Type := Trace -> Result A * Trace.

Definition ret {A} (a : A) : M A := fun tr => (Ok a, tr).

Definition raise {A} (e : exn) : M A := fun tr => (Raise e, tr).

Definition bind {A B} (m : M A) (k : A -> M B) : M B :=
  fun tr =>
    match m tr with
    | (Ok a, tr') => k a tr'
    | (Raise e, tr') => (Raise e, tr')
    end.

#[global] Instance M_ret : MRet M := @ret.
#[global] Instance M_bind : MBind M := fun A B k m => bind m k.

(** A pure result that may be an exception. *)
Definition lift {A} (r : Result A) : M A := fun tr => (r, tr).

(** [d[k]] on a dict. *)
Definition getitem {V} (d : gmap string V) (k : string) : M V :=
  match d !! k with
  | Some v => ret v
  | None => raise (KeyError k)
  end.

(** [l[0]] on a list. *)
Definition first {A} (l : list A) : M A :=
  match l with
  | a :: _ => ret a
  | [] => raise (IndexError "list index out of range")
  end.

(** [CarlaDataProvider.request_new_actor(model, spawn_point, rolename=...,
    attribute_filter=...)]: the request and its answer enter the trace. *)
Definition request_new_actor `{Simulator}
    (model : string) (spawn_point : carla.Transform) (rolename : string)
    (attribute_filter : list (string * string)) : M (option carla.Actor) :=
  fun tr =>
    let r := spawn_answer tr model spawn_point rolename attribute_filter in
    (Ok r,
     tr ++ [request_new_actor_call model spawn_point rolename
              attribute_filter r]).

(** [actor.set_location(l)] *)
Definition set_location (actor : carla.Actor) (l : carla.Location) : M unit :=
  fun tr => (Ok tt, tr ++ [set_location_call actor l]).

(** ** The scenario configuration and the scenario object *)

(** [config.other_parameters] maps an element name to its attributes;
    [config.trigger_points] are transforms. *)
Record ScenarioConfiguration : Type := mkScenarioConfiguration {
  other_parameters : gmap string (gmap string string);
  trigger_points : list carla.Transform
}.

(** The attributes of a [ParkingExit] object.  The first eight are set by
    [ParkingExit.__init__]; [ego_vehicles], [other_actors] and
    [route_mode] belong to [BasicScenario]; [_ego_transform] is set by
    [_initialize_actors].  [_parking_waypoint] is [None] only on the path
    of [__init__] that raises, which leaves no object behind. *)
Record ParkingExit : Type := mkParkingExit {
  timeout : Q;
  _front_vehicle_distance : Q;
  _behind_vehicle_distance : Q;
  _end_distance : Q;
  _parking_lane_side : string;
  _trigger_location : carla.Location;
  _reference_waypoint : carla.Waypoint;
  _parking_waypoint : carla.Waypoint;
  ego_vehicles : list carla.Actor;
  other_actors : list carla.Actor;
  route_mode : bool;
  _ego_transform : option carla.Location
}.

Definition set_other_actors (self : ParkingExit) (l : list carla.Actor)
  : ParkingExit :=
  mkParkingExit (timeout self) (_front_vehicle_distance self)
    (_behind_vehicle_distance self) (_end_distance self)
    (_parking_lane_side self) (_trigger_location self)
    (_reference_waypoint self) (_parking_waypoint self)
    (ego_vehicles self) l (route_mode self) (_ego_transform self).

Definition set_ego_vehicles (self : ParkingExit) (l : list carla.Actor)
  : ParkingExit :=
  mkParkingExit (timeout self) (_front_vehicle_distance self)
    (_behind_vehicle_distance self) (_end_distance self)
    (_parking_lane_side self) (_trigger_location self)
    (_reference_waypoint self) (_parking_waypoint self)
    l (other_actors self) (route_mode self) (_ego_transform self).

Definition set__ego_transform (self : ParkingExit) (l : carla.Location)
  : ParkingExit :=
  mkParkingExit (timeout self) (_front_vehicle_distance self)
    (_behind_vehicle_distance self) (_end_distance self)
    (_parking_lane_side self) (_trigger_location self)
    (_reference_waypoint self) (_parking_waypoint self)
    (ego_vehicles self) (other_actors self) (route_mode self) (Some l).

(** ** Behaviour-tree nodes and criteria built by the scenario *)

Inductive ParallelPolicy : Type := SUCCESS_ON_ALL | SUCCESS_ON_ONE.

#[warnings="-register-all"]
Inductive Behaviour : Type :=
| Sequence (children : list Behaviour)
| Parallel (policy : ParallelPolicy) (children : list Behaviour)
| SwitchOutsideRouteLanesTest (activate : bool)
| DriveDistance (actor : carla.Actor) (distance : Q)
| ActorDestroy (actor : carla.Actor).

(** [composite.add_child(child)]: the child goes last.  Every child in
    this file is complete when it is added, so the tree is a value. *)
Definition add_child (parent child : Behaviour) : Behaviour :=
  match parent with
  | Sequence cs => Sequence (cs ++ [child])
  | Parallel p cs => Parallel p (cs ++ [child])
  | leaf => leaf
  end.

Inductive Criterion : Type :=
| CollisionTest (actor : carla.Actor).

(** ** The methods of [ParkingExit] *)

Section ParkingExit.

Context `{Simulator}.

(** [convert_dict_to_location], lines 25-34: the three coordinates are
    looked up and converted in the order x, y, z.  The dict maps names to
    the strings of the file it was read from. *)
Definition convert_dict_to_location (actor_dict : gmap string string)
    : M carla.Location :=
  sx ← getitem actor_dict "x";
  x ← lift (float sx);
  sy ← getitem actor_dict "y";
  y ← lift (float sy);
  sz ← getitem actor_dict "z";
  z ← lift (float sz);
  ret (carla.mkVector3D x y z).

(** Lines 60-70: [float(config.other_parameters[name]['value'])] when
    [name] is a key, else the default. *)
Definition distance_parameter (config : ScenarioConfiguration)
    (name : string) (default : Q) : M Q :=
  match other_parameters config !! name with
  | Some attrib => v ← getitem attrib "value"; lift (float v)
  | None => ret default
  end.

(** Lines 74-77: the configured side, "right" when none is given. *)
Definition parking_lane_side_parameter (config : ScenarioConfiguration)
    : M string :=
  match other_parameters config !! "parking_lane_side" with
  | Some attrib => getitem attrib "value"
  | None => ret "right"
  end.

(** Lines 82-85: the lane next to the reference waypoint on that side. *)
Definition parking_lane (parking_lane_side : string)
    (reference_waypoint : carla.Waypoint) : option carla.Waypoint :=
  if decide (parking_lane_side = "left")
  then get_left_lane reference_waypoint
  else get_right_lane reference_waypoint.

(** [ParkingExit.__init__], lines 56-89: the attributes the class sets
    itself, and the check of the parking lane.  The attributes of
    [BasicScenario] are still empty in the object that is returned. *)
Definition init_attributes (config : ScenarioConfiguration) (timeout : Q)
    : M ParkingExit :=
  front_vehicle_distance ←
    distance_parameter config "front_vehicle_distance" 20;
  behind_vehicle_distance ←
    distance_parameter config "behind_vehicle_distance" 5;
  let end_distance := (front_vehicle_distance + 15)%Q in
  parking_lane_side ← parking_lane_side_parameter config;
  trigger_point ← first (trigger_points config);
  let trigger_location := carla.location trigger_point in
  let reference_waypoint := get_waypoint trigger_location in
  match parking_lane parking_lane_side reference_waypoint with
  | None =>
      raise (Exception ("Couldn't find parking point on the "
                          +:+ parking_lane_side +:+ " side"))
  | Some parking_waypoint =>
      ret (mkParkingExit timeout front_vehicle_distance
             behind_vehicle_distance end_distance parking_lane_side
             trigger_location reference_waypoint parking_waypoint
             [] [] false None)
  end.

(** [ParkingExit.__init__], whole: lines 56-89, then the call of the base
    class at lines 91-96.  The initialiser of the base class is not part
    of this file; it is the argument [super__init__]. *)
Definition __init__
    (super__init__ :
       ParkingExit -> string -> list carla.Actor ->
       ScenarioConfiguration -> bool -> bool -> M ParkingExit)
    (ego_vehicles : list carla.Actor) (config : ScenarioConfiguration)
    (debug_mode criteria_enable : bool) (timeout : Q) : M ParkingExit :=
  self ← init_attributes config timeout;
  super__init__ self "ParkingExit" ego_vehicles config debug_mode
    criteria_enable.

(** [_get_displaced_transform], lines 142-156.  [get_right_vector] and
    [+] hand out fresh objects, so the two in-place updates ([*= -1] and
    [z += 0.05]) touch locals only. *)
Definition _get_displaced_transform (self : ParkingExit)
    (actor : carla.Actor) (wp : carla.Waypoint) : M carla.Location :=
  let displacement :=
    ((carla.lane_width wp
      - carla.y (carla.extent (carla.bounding_box actor))) / 4)%Q in
  let displacement_vector := get_right_vector (carla.transform wp) in
  let displacement_vector :=
    if decide (_parking_lane_side self = "left")
    then carla.imul displacement_vector (-1)
    else displacement_vector in
  let new_location :=
    carla.add (carla.location (carla.transform wp))
      (carla.mkVector3D
         (displacement * carla.x displacement_vector)%Q
         (displacement * carla.y displacement_vector)%Q
         (displacement * carla.z displacement_vector)%Q) in
  let new_location :=
    carla.mkVector3D (carla.x new_location) (carla.y new_location)
      (carla.z new_location + (5 # 100))%Q in
  ret new_location.

(** [_initialize_actors], lines 98-140. *)
Definition _initialize_actors (self : ParkingExit)
    (config : ScenarioConfiguration) : M ParkingExit :=
  let front_points :=
    next (_parking_waypoint self) (_front_vehicle_distance self) in
  match front_points with
  | [] =>
      raise (ValueError
        "Couldn't find viable position for the vehicle in front of the parking point")
  | front_point :: _ =>
      actor_front ← request_new_actor "vehicle.*"
        (carla.transform front_point) "scenario" [("base_type", "car")];
      match actor_front with
      | None =>
          raise (ValueError
            "Couldn't spawn the vehicle in front of the parking point")
      | Some actor_front =>
          let self := set_other_actors self
                        (other_actors self ++ [actor_front]) in
          side_transform ←
            _get_displaced_transform self actor_front front_point;
          set_location actor_front side_transform;;
          let behind_points :=
            previous (_parking_waypoint self)
              (_behind_vehicle_distance self) in
          match behind_points with
          | [] =>
              raise (ValueError
                "Couldn't find viable position for the vehicle behind the parking point")
          | behind_point :: _ =>
              actor_behind ← request_new_actor "vehicle.*"
                (carla.transform behind_point) "scenario"
                [("base_type", "car")];
              match actor_behind with
              | None =>
                  raise (ValueError
                    "Couldn't spawn the vehicle behind the parking point")
              | Some actor_behind =>
                  let self := set_other_actors self
                                (other_actors self ++ [actor_behind]) in
                  side_transform ←
                    _get_displaced_transform self actor_behind
                      behind_point;
                  set_location actor_behind side_transform;;
                  ego ← first (ego_vehicles self);
                  ego_transform ←
                    _get_displaced_transform self ego
                      (_parking_waypoint self);
                  let self := set__ego_transform self ego_transform in
                  ego ← first (ego_vehicles self);
                  set_location ego ego_transform;;
                  ret self
              end
          end
      end
  end.

(** [_create_behavior], lines 158-184. *)
Definition _create_behavior (self : ParkingExit) : M Behaviour :=
  let sequence := Sequence [] in
  let sequence := add_child sequence (SwitchOutsideRouteLanesTest false) in
  let root := Parallel SUCCESS_ON_ONE [] in
  let end_condition := Sequence [] in
  ego ← first (ego_vehicles self);
  let end_condition :=
    add_child end_condition (DriveDistance ego (_end_distance self)) in
  let root := add_child root end_condition in
  let sequence := add_child sequence root in
  let sequence := add_child sequence (SwitchOutsideRouteLanesTest true) in
  let sequence :=
    fold_left (fun sequence actor => add_child sequence (ActorDestroy actor))
      (other_actors self) sequence in
  ret sequence.

(** [_create_test_criteria], lines 186-194. *)
Definition _create_test_criteria (self : ParkingExit)
    : M (list Criterion) :=
  if route_mode self then ret []
  else
    ego ← first (ego_vehicles self);
    ret [CollisionTest ego].

(** Modelled from the spec: [BasicScenario.__init__]
    (srunner/scenarios/basic_scenario.py) is not among the sources.
    The spec speaks of scenario setup as the constructor plus
    [_initialize_actors]: the base initialiser keeps the ego vehicles,
    starts with no other actors and calls [_initialize_actors(config)]. *)
Definition BasicScenario__init__ (self : ParkingExit) (name : string)
    (ego_vehicles : list carla.Actor) (config : ScenarioConfiguration)
    (debug_mode criteria_enable : bool) : M ParkingExit :=
  let self := set_ego_vehicles self ego_vehicles in
  let self := set_other_actors self [] in
  _initialize_actors self config.

(** Scenario setup: [ParkingExit(world, ego_vehicles, config, ...)] with
    that base initialiser. *)
Definition scenario_setup (ego_vehicles : list carla.Actor)
    (config : ScenarioConfiguration) (debug_mode criteria_enable : bool)
    (timeout : Q) : M ParkingExit :=
  __init__ BasicScenario__init__ ego_vehicles config debug_mode
    criteria_enable timeout.

End ParkingExit.

(** ** Outcomes of a computation *)

(** [m] makes no simulator call and returns [a], whatever was called
    before. *)
Definition returns {A} (m : M A) (a : A) : Prop :=
  forall tr, m tr = (Ok a, tr).

(** [m], started after the calls [tr], ends in an exception. *)
Definition raises {A} (m : M A) (tr : Trace) : Prop :=
  exists e tr', m tr = (Raise e, tr').

(** ** What a run of the scenario's set-up can look like *)

Section Outcomes.

Context `{Simulator}.

(** The answer to the request for a blocking vehicle at a waypoint, and
    the request as it enters the trace. *)
Definition vehicle_answer (tr : Trace) (wp : carla.Waypoint)
    : option carla.Actor :=
  spawn_answer tr "vehicle.*" (carla.transform wp) "scenario"
    [("base_type", "car")].

Definition vehicle_request (wp : carla.Waypoint) (r : option carla.Actor)
    : Event :=
  request_new_actor_call "vehicle.*" (carla.transform wp) "scenario"
    [("base_type", "car")] r.

(** [l] is where the lateral-displacement formula puts [actor] next to
    [wp] in a scenario parked on [side]. *)
Definition placed (side : string) (actor : carla.Actor)
    (wp : carla.Waypoint) (l : carla.Location) : Prop :=
  forall self, _parking_lane_side self = side ->
    returns (_get_displaced_transform self actor wp) l.

(** The runs of [_initialize_actors] on [self] after the calls [tr], one
    case for each way out of the method: its four explicit checks, the
    index into an empty [ego_vehicles], and success. *)
Inductive initialize_actors_run (self : ParkingExit) (tr : Trace)
    : Result ParkingExit -> Trace -> Prop :=
| no_front_position :
    next (_parking_waypoint self) (_front_vehicle_distance self) = [] ->
    initialize_actors_run self tr
      (Raise (ValueError
         "Couldn't find viable position for the vehicle in front of the parking point"))
      tr
| front_spawn_failed fp fps :
    next (_parking_waypoint self) (_front_vehicle_distance self)
      = fp :: fps ->
    vehicle_answer tr fp = None ->
    initialize_actors_run self tr
      (Raise (ValueError
         "Couldn't spawn the vehicle in front of the parking point"))
      (tr ++ [vehicle_request fp None])
| no_behind_position fp fps af lf :
    next (_parking_waypoint self) (_front_vehicle_distance self)
      = fp :: fps ->
    vehicle_answer tr fp = Some af ->
    returns (_get_displaced_transform self af fp) lf ->
    previous (_parking_waypoint self) (_behind_vehicle_distance self) = [] ->
    initialize_actors_run self tr
      (Raise (ValueError
         "Couldn't find viable position for the vehicle behind the parking point"))
      (tr ++ [vehicle_request fp (Some af); set_location_call af lf])
| behind_spawn_failed fp fps af lf bp bps :
    next (_parking_waypoint self) (_front_vehicle_distance self)
      = fp :: fps ->
    vehicle_answer tr fp = Some af ->
    returns (_get_displaced_transform self af fp) lf ->
    previous (_parking_waypoint self) (_behind_vehicle_distance self)
      = bp :: bps ->
    vehicle_answer
      (tr ++ [vehicle_request fp (Some af); set_location_call af lf]) bp
      = None ->
    initialize_actors_run self tr
      (Raise (ValueError
         "Couldn't spawn the vehicle behind the parking point"))
      (tr ++ [vehicle_request fp (Some af); set_location_call af lf;
              vehicle_request bp None])
| no_ego_vehicle fp fps af lf bp bps ab lb :
    next (_parking_waypoint self) (_front_vehicle_distance self)
      = fp :: fps ->
    vehicle_answer tr fp = Some af ->
    returns (_get_displaced_transform self af fp) lf ->
    previous (_parking_waypoint self) (_behind_vehicle_distance self)
      = bp :: bps ->
    vehicle_answer
      (tr ++ [vehicle_request fp (Some af); set_location_call af lf]) bp
      = Some ab ->
    returns (_get_displaced_transform self ab bp) lb ->
    ego_vehicles self = [] ->
    initialize_actors_run self tr
      (Raise (IndexError "list index out of range"))
      (tr ++ [vehicle_request fp (Some af); set_location_call af lf;
              vehicle_request bp (Some ab); set_location_call ab lb])
| actors_initialized fp fps af lf bp bps ab lb ego egos le :
    next (_parking_waypoint self) (_front_vehicle_distance self)
      = fp :: fps ->
    vehicle_answer tr fp = Some af ->
    returns (_get_displaced_transform self af fp) lf ->
    previous (_parking_waypoint self) (_behind_vehicle_distance self)
      = bp :: bps ->
    vehicle_answer
      (tr ++ [vehicle_request fp (Some af); set_location_call af lf]) bp
      = Some ab ->
    returns (_get_displaced_transform self ab bp) lb ->
    ego_vehicles self = ego :: egos ->
    returns (_get_displaced_transform self ego (_parking_waypoint self)) le ->
    initialize_actors_run self tr
      (Ok (set__ego_transform
             (set_other_actors self (other_actors self ++ [af; ab])) le))
      (tr ++ [vehicle_request fp (Some af); set_location_call af lf;
              vehicle_request bp (Some ab); set_location_call ab lb;
              set_location_call ego le]).

(** The object [__init__] has built when the parking lane is there. *)
Definition built (timeout fd bd : Q) (side : string) (tp : carla.Transform)
    (pw : carla.Waypoint) : ParkingExit :=
  mkParkingExit timeout fd bd (fd + 15)%Q side (carla.location tp)
    (get_waypoint (carla.location tp)) pw [] [] false None.

(** The three kinds of missing data, for a configuration that asks for
    [side], triggers at [tp] and puts the vehicles [fd] ahead and [bd]
    behind; [tr] are the simulator calls made before set-up. *)
Definition parking_lane_missing (side : string) (tp : carla.Transform)
    : Prop :=
  parking_lane side (get_waypoint (carla.location tp)) = None.

Definition no_spawn_position (pw : carla.Waypoint) (fd bd : Q) : Prop :=
  next pw fd = [] \/ previous pw bd = [].

Definition spawn_fails (side : string) (pw : carla.Waypoint) (fd bd : Q)
    (tr : Trace) : Prop :=
  exists fp fps, next pw fd = fp :: fps /\
    (vehicle_answer tr fp = None \/
     exists af lf bp bps,
       vehicle_answer tr fp = Some af /\ placed side af fp lf /\
       previous pw bd = bp :: bps /\
       vehicle_answer
         (tr ++ [vehicle_request fp (Some af); set_location_call af lf]) bp
         = None).

Definition missing_data (side : string) (tp : carla.Transform) (fd bd : Q)
    (tr : Trace) : Prop :=
  parking_lane_missing side tp \/
  exists pw, parking_lane side (get_waypoint (carla.location tp)) = Some pw /\
    (no_spawn_position pw fd bd \/ spawn_fails side pw fd bd tr).

End Outcomes.

(** Requests for a new actor, and those that were refused. *)
Definition is_request (ev : Event) : bool :=
  match ev with
  | request_new_actor_call _ _ _ _ _ => true
  | set_location_call _ _ => false
  end.

Definition failed_request (ev : Event) : bool :=
  match ev with
  | request_new_actor_call _ _ _ _ None => true
  | _ => false
  end.

(** ** Reading the trace and the configuration *)

(** The actors the simulator granted among some calls, in order. *)
Definition granted (calls : list Event) : list carla.Actor :=
  flat_map
    (fun ev =>
       match ev with
       | request_new_actor_call _ _ _ _ (Some a) => [a]
       | _ => []
       end)
    calls.

(** The actors that some calls moved, in order. *)
Definition moved (calls : list Event) : list carla.Actor :=
  flat_map
    (fun ev =>
       match ev with
       | set_location_call a _ => [a]
       | _ => []
       end)
    calls.

(** The children of a composite node. *)
Definition children (b : Behaviour) : list Behaviour :=
  match b with
  | Sequence cs => cs
  | Parallel _ cs => cs
  | _ => []
  end.

Section Readable.

Context `{Simulator}.

(** The configuration gives the distance [name] as [q]: the element is
    absent and [q] is the default, or its [value] converts to [q]. *)
Definition reads_distance (config : ScenarioConfiguration) (name : string)
    (default q : Q) : Prop :=
  match other_parameters config !! name with
  | Some attrib => exists v, attrib !! "value" = Some v /\ float v = Ok q
  | None => q = default
  end.

(** The configuration asks for [side]. *)
Definition reads_side (config : ScenarioConfiguration) (side : string)
    : Prop :=
  match other_parameters config !! "parking_lane_side" with
  | Some attrib => attrib !! "value" = Some side
  | None => side = "right"
  end.

(** An element of the configuration that is there without a [value]. *)
Definition lacks_value (config : ScenarioConfiguration) (name : string)
    : Prop :=
  exists attrib,
    other_parameters config !! name = Some attrib /\ attrib !! "value" = None.

End Readable.

(** ** A small simulator to run the scenario on

    A straight road along the x axis whose right vector is the y axis.
    Every waypoint has a lane on its right and none on its left; there is
    always a waypoint ahead and behind; every spawn request succeeds with
    a car 2 m wide.  [float] knows the two numerals used below. *)

Module Town.

Definition car : carla.BoundingBox :=
  carla.mkBoundingBox (carla.mkVector3D 0 0 (3 # 4))
    (carla.mkVector3D (12 # 5) 1 (3 # 4)).

Definition shifted (wp : carla.Waypoint) (dx dy : Q) (width : Q)
    : carla.Waypoint :=
  let t := carla.transform wp in
  let l := carla.location t in
  carla.mkWaypoint
    (carla.mkTransform
       (carla.mkVector3D (carla.x l + dx) (carla.y l + dy) (carla.z l))
       (carla.rotation t))
    width.

Definition py_float (s : string) : Result Q :=
  if decide (s = "30") then Ok 30%Q
  else if decide (s = "8") then Ok 8%Q
  else Raise (ValueError ("could not convert string to float: " +:+ s)).

Definition sim : Simulator := {|
  float := py_float;
  get_waypoint l :=
    carla.mkWaypoint (carla.mkTransform l (carla.mkRotation 0 0 0)) (7 # 2);
  get_left_lane wp := None;
  get_right_lane wp := Some (shifted wp 0 (13 # 4) 3);
  next wp d := [shifted wp d 0 (carla.lane_width wp)];
  previous wp d := [shifted wp (- d) 0 (carla.lane_width wp)];
  get_right_vector t := carla.mkVector3D 0 1 0;
  spawn_answer tr model spawn_point rolename attribute_filter :=
    Some (carla.mkActor (length tr) car)
|}.

Definition origin : carla.Transform :=
  carla.mkTransform (carla.mkVector3D 0 0 0) (carla.mkRotation 0 0 0).

Definition ego : carla.Actor := carla.mkActor 100 car.

(** A route file that gives nothing but the trigger point. *)
Definition config_default : ScenarioConfiguration :=
  mkScenarioConfiguration ∅ [origin].

(** [<front_vehicle_distance value="30"/>],
    [<behind_vehicle_distance value="8"/>],
    [<parking_lane_side value="right"/>]. *)
Definition config_right : ScenarioConfiguration :=
  mkScenarioConfiguration
    (<["front_vehicle_distance" := {["value" := "30"]}]>
       (<["behind_vehicle_distance" := {["value" := "8"]}]>
          {["parking_lane_side" := {["value" := "right"]}]}))
    [origin].

(** [<parking_lane_side value="left"/>]: the side without a lane. *)
Definition config_left : ScenarioConfiguration :=
  mkScenarioConfiguration {["parking_lane_side" := {["value" := "left"]}]}
    [origin].

(** [<front_vehicle_distance/>]: the element without its [value]. *)
Definition config_no_value : ScenarioConfiguration :=
  mkScenarioConfiguration {["front_vehicle_distance" := ∅]} [origin].

(** A scenario object on the right-hand lane of the origin. *)
Definition parked (side : string) (egos others : list carla.Actor)
    (route : bool) : ParkingExit :=
  let ref := @get_waypoint sim (carla.location origin) in
  mkParkingExit 180 20 5 35 side (carla.location origin) ref
    (shifted ref 0 (13 # 4) 3) egos others route None.

(** A dict with the three coordinates, and one without its y. *)
Definition spot : gmap string string :=
  <["x" := "30"]> (<["y" := "8"]> {["z" := "30"]}).

Definition spot_without_y : gmap string string :=
  <["x" := "30"]> {["z" := "8"]}.

(** A dict whose z is no number. *)
Definition spot_with_bad_z : gmap string string :=
  <["x" := "30"]> (<["y" := "8"]> {["z" := "up"]}).

End Town.

(** ** The displaced location *)

Section Displacement.

Context `{Simulator}.

(** C1, amended. For every actor and waypoint, [_get_displaced_transform]
    moves the actor away from the waypoint's location by the right vector
    scaled with [(lane_width - actor_width / 2) / 4]: what the code
    subtracts from the lane width is [actor.bounding_box.extent.y], half
    the width of the actor.  Apart from the 0.05 lift off the ground, the
    squared length of the move is the square of that displacement times
    the squared length of the right vector, so for a right vector of
    length one the move has exactly that magnitude. *)
Theorem displacement_is_quarter_of_lane_minus_half_width
    (self : ParkingExit) (actor : carla.Actor) (wp : carla.Waypoint) :
  exists loc : carla.Location,
    returns (_get_displaced_transform self actor wp) loc /\
    let displacement :=
      ((carla.lane_width wp
        - carla.width (carla.bounding_box actor) / 2) / 4)%Q in
    let w := carla.location (carla.transform wp) in
    let right := get_right_vector (carla.transform wp) in
    let move :=
      carla.mkVector3D (carla.x loc - carla.x w) (carla.y loc - carla.y w)
        (carla.z loc - (5 # 100) - carla.z w) in
    displacement
    == (carla.lane_width wp
        - carla.y (carla.extent (carla.bounding_box actor))) / 4 /\
    carla.norm2 move == displacement * displacement * carla.norm2 right /\
    (carla.norm2 right == 1 ->
     carla.norm2 move == displacement * displacement).
Proof.
  eexists. split.
  - intros tr. reflexivity.
  - cbv zeta. split; [unfold carla.width; field |].
    match goal with |- ?l == ?r /\ _ => assert (Hgen : l == r) end.
    { unfold carla.norm2, carla.add, carla.imul, carla.width.
      destruct (decide (_parking_lane_side self = "left")); simpl; field. }
    split; [exact Hgen |].
    intros Hunit. rewrite Hgen, Hunit. ring.
Qed.

(** C7. For every actor and waypoint, the location returned by
    [_get_displaced_transform] is the waypoint's location plus the
    displacement times the waypoint's right vector, the vector being
    negated when the parking lane side is "left", with 0.05 more on the z
    coordinate.  The call returns without any simulator call: the actor
    stays where it is, and the waypoint is an immutable value. *)
Theorem displaced_location_formula
    (self : ParkingExit) (actor : carla.Actor) (wp : carla.Waypoint) :
  exists loc : carla.Location,
    returns (_get_displaced_transform self actor wp) loc /\
    let displacement :=
      ((carla.lane_width wp
        - carla.y (carla.extent (carla.bounding_box actor))) / 4)%Q in
    let w := carla.location (carla.transform wp) in
    let right := get_right_vector (carla.transform wp) in
    (_parking_lane_side self = "left" ->
     carla.x loc == carla.x w + displacement * - carla.x right /\
     carla.y loc == carla.y w + displacement * - carla.y right /\
     carla.z loc == carla.z w + displacement * - carla.z right + (5 # 100))
    /\
    (_parking_lane_side self <> "left" ->
     carla.x loc == carla.x w + displacement * carla.x right /\
     carla.y loc == carla.y w + displacement * carla.y right /\
     carla.z loc == carla.z w + displacement * carla.z right + (5 # 100)).
Proof.
  eexists. split.
  - intros tr. reflexivity.
  - cbv zeta. unfold carla.add, carla.imul.
    destruct (decide (_parking_lane_side self = "left")) as [Hl | Hr]; simpl.
    + split; [intros _ | intros Hne; contradiction].
      repeat split; ring.
    + split; [intros Hl; contradiction | intros _].
      repeat split; reflexivity.
Qed.

End Displacement.

(** C1, amended, on the sample road: a car 2 m wide (extent 1) on a lane
    3 m wide is moved by (3 - 2/2) / 4 = 1/2, whichever the side. *)
Lemma displacement_is_quarter_of_lane_minus_half_width_witness :
  exists loc : carla.Location,
    returns (@_get_displaced_transform Town.sim
               (Town.parked "right" [Town.ego] [] false) Town.ego
               (Town.shifted (@get_waypoint Town.sim
                                (carla.location Town.origin)) 0 (13 # 4) 3))
            loc /\
    carla.norm2
      (carla.mkVector3D (carla.x loc - 0) (carla.y loc - (13 # 4))
         (carla.z loc - (5 # 100) - 0)) == (1 # 2) * (1 # 2).
Proof.
  destruct (@displacement_is_quarter_of_lane_minus_half_width Town.sim
              (Town.parked "right" [Town.ego] [] false) Town.ego
              (Town.shifted (@get_waypoint Town.sim
                               (carla.location Town.origin)) 0 (13 # 4) 3))
    as (loc & Hret & _ & _ & Hunit).
  exists loc. split; [exact Hret |].
  simpl in Hunit.
  assert (Hu : carla.norm2 (carla.mkVector3D 0 1 0) == 1) by reflexivity.
  specialize (Hunit Hu).
  etransitivity; [| etransitivity; [exact Hunit | reflexivity]].
  unfold carla.norm2; simpl; ring.
Defined.

(** C1 as stated fails: with the width of the actor in the formula, the
    sample car, 2 m wide on a lane 3 m wide whose right vector has length
    one, would be moved by (3 - 2) / 4 = 1/4; the code moves it by 1/2. *)
Lemma displacement_is_not_quarter_of_lane_minus_width :
  let wp :=
    Town.shifted (@get_waypoint Town.sim (carla.location Town.origin))
      0 (13 # 4) 3 in
  exists loc : carla.Location,
    returns (@_get_displaced_transform Town.sim
               (Town.parked "right" [Town.ego] [] false) Town.ego wp) loc /\
    let w := carla.location (carla.transform wp) in
    let move :=
      carla.mkVector3D (carla.x loc - carla.x w) (carla.y loc - carla.y w)
        (carla.z loc - (5 # 100) - carla.z w) in
    let claimed :=
      ((carla.lane_width wp
        - carla.width (carla.bounding_box Town.ego)) / 4)%Q in
    carla.width (carla.bounding_box Town.ego) == 2 /\
    carla.lane_width wp == 3 /\
    carla.norm2 (@get_right_vector Town.sim (carla.transform wp)) == 1 /\
    claimed == 1 # 4 /\
    carla.norm2 move == (1 # 2) * (1 # 2) /\
    ~ carla.norm2 move == claimed * claimed.
Proof.
  cbv zeta. eexists. split; [intros tr; reflexivity |].
  split; [reflexivity |]. split; [reflexivity |]. split; [reflexivity |].
  split; [reflexivity |]. split; [vm_compute; reflexivity |].
  intros Heq. vm_compute in Heq. discriminate Heq.
Qed.

(** ** The constructor and the set-up of the actors *)

Section Setup.

Context `{Simulator}.

(** *** Running the monad, one step at a time *)

Lemma run_bind {A B} (m : M A) (k : A -> M B) (tr : Trace) :
  (m ≫= k) tr =
  match m tr with
  | (Ok a, tr') => k a tr'
  | (Raise e, tr') => (Raise e, tr')
  end.
Proof. reflexivity. Qed.

Lemma run_request (wp : carla.Waypoint) (tr : Trace) :
  request_new_actor "vehicle.*" (carla.transform wp) "scenario"
    [("base_type", "car")] tr
  = (Ok (vehicle_answer tr wp),
     tr ++ [vehicle_request wp (vehicle_answer tr wp)]).
Proof. reflexivity. Qed.

Lemma run_set_location a l tr :
  set_location a l tr = (Ok tt, tr ++ [set_location_call a l]).
Proof. reflexivity. Qed.

(** [_get_displaced_transform] only computes, and of [self] it reads the
    side alone. *)
Lemma _get_displaced_transform_returns self actor wp :
  exists l, returns (_get_displaced_transform self actor wp) l.
Proof. eexists. intros tr. reflexivity. Qed.

Lemma _get_displaced_transform_side self1 self2 actor wp :
  _parking_lane_side self1 = _parking_lane_side self2 ->
  _get_displaced_transform self1 actor wp
  = _get_displaced_transform self2 actor wp.
Proof. intros Hs. unfold _get_displaced_transform. rewrite Hs. reflexivity. Qed.

Lemma app_snoc {A} (l : list A) (k : list A) (a : A) :
  (l ++ k) ++ [a] = l ++ (k ++ [a]).
Proof. symmetry. apply app_assoc. Qed.

(** Every run of [_initialize_actors] is one of the six shapes of
    [initialize_actors_run]. *)
Lemma _initialize_actors_run self cfg tr :
  initialize_actors_run self tr
    (_initialize_actors self cfg tr).1 (_initialize_actors self cfg tr).2.
Proof.
  unfold _initialize_actors.
  destruct (next _ _) as [|fp fps] eqn:Hnext.
  { apply no_front_position, Hnext. }
  rewrite run_bind, run_request.
  destruct (vehicle_answer tr fp) as [af|] eqn:Hf.
  2: { apply (front_spawn_failed _ _ fp fps); assumption. }
  destruct (_get_displaced_transform_returns self af fp) as [lf Hlf].
  rewrite run_bind.
  rewrite (_get_displaced_transform_side _ self) by reflexivity.
  rewrite (Hlf _), run_bind, run_set_location.
  cbn [_parking_waypoint set_other_actors _behind_vehicle_distance].
  rewrite (app_snoc tr); cbn [app].
  destruct (previous _ _) as [|bp bps] eqn:Hprev.
  { apply (no_behind_position _ _ fp fps af lf); assumption. }
  rewrite run_bind, run_request.
  destruct (vehicle_answer _ bp) as [ab|] eqn:Hb.
  2: { rewrite (app_snoc tr); cbn [app].
       apply (behind_spawn_failed _ _ fp fps af lf bp bps); assumption. }
  destruct (_get_displaced_transform_returns self ab bp) as [lb Hlb].
  rewrite run_bind.
  rewrite (_get_displaced_transform_side _ self) by reflexivity.
  rewrite (Hlb _), run_bind, run_set_location.
  rewrite !(app_snoc tr); cbn [app].
  cbn [ego_vehicles set_other_actors].
  rewrite run_bind.
  destruct (ego_vehicles self) as [|ego egos] eqn:Hego.
  { apply (no_ego_vehicle _ _ fp fps af lf bp bps ab lb); assumption. }
  cbn [first]. change (ret ego ?t) with (Ok ego, t).
  cbv beta iota.
  destruct (_get_displaced_transform_returns self ego (_parking_waypoint self))
    as [le Hle].
  rewrite run_bind.
  rewrite (_get_displaced_transform_side _ self) by reflexivity.
  cbn [_parking_waypoint set_other_actors].
  rewrite (Hle _), run_bind.
  cbn [ego_vehicles set__ego_transform set_other_actors].
  rewrite Hego. cbn [first]. change (ret ego ?t) with (Ok ego, t).
  cbv beta iota.
  rewrite run_bind, run_set_location.
  rewrite !(app_snoc tr); cbn [app].
  change (ret ?a ?t) with (Ok a, t). cbn [fst snd].
  match goal with
  | |- initialize_actors_run _ _ (Ok ?o) _ =>
      replace o
        with (set__ego_transform
                (set_other_actors self (other_actors self ++ [af; ab])) le)
  end.
  - apply (actors_initialized _ _ fp fps af lf bp bps ab lb ego egos le);
      assumption.
  - unfold set__ego_transform, set_other_actors; cbn.
    rewrite <- app_assoc. reflexivity.
Qed.

(** *** Reading the configuration makes no simulator call *)

Lemma distance_parameter_run cfg name d tr :
  distance_parameter cfg name d tr = ((distance_parameter cfg name d []).1, tr).
Proof.
  unfold distance_parameter.
  destruct (other_parameters cfg !! name) as [attrib|]; [| reflexivity].
  rewrite !run_bind. unfold getitem.
  destruct (attrib !! "value") as [v|]; reflexivity.
Qed.

Lemma parking_lane_side_parameter_run cfg tr :
  parking_lane_side_parameter cfg tr
  = ((parking_lane_side_parameter cfg []).1, tr).
Proof.
  unfold parking_lane_side_parameter.
  destruct (other_parameters cfg !! "parking_lane_side") as [attrib|];
    [| reflexivity].
  unfold getitem. destruct (attrib !! "value") as [v|]; reflexivity.
Qed.

Lemma run_returns {A} (m : M A) (a : A) (tr tr' : Trace) :
  (forall t, m t = ((m []).1, t)) -> m tr = (Ok a, tr') ->
  returns m a /\ tr' = tr.
Proof.
  intros Hpure Hrun. rewrite (Hpure tr) in Hrun.
  injection Hrun as Hres Htr. split; [| congruence].
  intros t. rewrite (Hpure t), Hres. reflexivity.
Qed.

(** *** The constructor up to the call of the base class *)

Lemma init_attributes_run cfg t fd bd side tp tps tr :
  returns (distance_parameter cfg "front_vehicle_distance" 20) fd ->
  returns (distance_parameter cfg "behind_vehicle_distance" 5) bd ->
  returns (parking_lane_side_parameter cfg) side ->
  trigger_points cfg = tp :: tps ->
  init_attributes cfg t tr =
  match parking_lane side (get_waypoint (carla.location tp)) with
  | None =>
      (Raise (Exception ("Couldn't find parking point on the "
                           +:+ side +:+ " side")), tr)
  | Some pw => (Ok (built t fd bd side tp pw), tr)
  end.
Proof.
  intros Hfd Hbd Hside Htp. unfold init_attributes.
  rewrite run_bind, (Hfd _), run_bind, (Hbd _), run_bind, (Hside _), Htp.
  rewrite run_bind. cbn [first]. change (ret tp tr) with (Ok tp, tr).
  cbv beta iota.
  destruct (parking_lane side _); reflexivity.
Qed.

Lemma init_attributes_trace cfg t tr : (init_attributes cfg t tr).2 = tr.
Proof.
  unfold init_attributes.
  rewrite run_bind, distance_parameter_run.
  destruct (distance_parameter _ _ _ []).1 as [fd|]; [| reflexivity].
  rewrite run_bind, distance_parameter_run.
  destruct (distance_parameter _ _ _ []).1 as [bd|]; [| reflexivity].
  rewrite run_bind, parking_lane_side_parameter_run.
  destruct (parking_lane_side_parameter _ []).1 as [side|]; [| reflexivity].
  rewrite run_bind.
  destruct (trigger_points cfg) as [|tp tps]; [reflexivity |].
  cbn [first]. change (ret tp tr) with (Ok tp, tr). cbv beta iota.
  destruct (parking_lane side _); reflexivity.
Qed.

Lemma init_attributes_Ok cfg t tr self tr' :
  init_attributes cfg t tr = (Ok self, tr') ->
  exists fd bd side tp tps pw,
    returns (distance_parameter cfg "front_vehicle_distance" 20) fd /\
    returns (distance_parameter cfg "behind_vehicle_distance" 5) bd /\
    returns (parking_lane_side_parameter cfg) side /\
    trigger_points cfg = tp :: tps /\
    parking_lane side (get_waypoint (carla.location tp)) = Some pw /\
    tr' = tr /\ self = built t fd bd side tp pw.
Proof.
  unfold init_attributes. intros Hrun.
  rewrite run_bind in Hrun.
  destruct (distance_parameter cfg "front_vehicle_distance" 20 tr)
    as [[fd|e] tr1] eqn:Hfd; [| discriminate].
  apply run_returns in Hfd as [Hfd ->]; [| apply distance_parameter_run].
  rewrite run_bind in Hrun.
  destruct (distance_parameter cfg "behind_vehicle_distance" 5 tr)
    as [[bd|e] tr1] eqn:Hbd; [| discriminate].
  apply run_returns in Hbd as [Hbd ->]; [| apply distance_parameter_run].
  rewrite run_bind in Hrun.
  destruct (parking_lane_side_parameter cfg tr)
    as [[side|e] tr1] eqn:Hside; [| discriminate].
  apply run_returns in Hside as [Hside ->];
    [| apply parking_lane_side_parameter_run].
  rewrite run_bind in Hrun.
  destruct (trigger_points cfg) as [|tp tps] eqn:Htp; [discriminate |].
  cbn [first] in Hrun. change (ret tp tr) with (Ok tp, tr) in Hrun.
  cbv beta iota in Hrun.
  destruct (parking_lane side _) as [pw|] eqn:Hpw; [| discriminate].
  injection Hrun as <- <-.
  exists fd, bd, side, tp, tps, pw. repeat split; assumption.
Qed.


Lemma init_attributes_raises cfg t tr side tp tps :
  returns (parking_lane_side_parameter cfg) side ->
  trigger_points cfg = tp :: tps ->
  parking_lane side (get_waypoint (carla.location tp)) = None ->
  exists e, init_attributes cfg t tr = (Raise e, tr).
Proof.
  intros Hside Htp Hlane. unfold init_attributes.
  rewrite run_bind, distance_parameter_run.
  destruct (distance_parameter _ _ _ []).1 as [fd|e]; [| by exists e].
  rewrite run_bind, distance_parameter_run.
  destruct (distance_parameter _ _ _ []).1 as [bd|e]; [| by exists e].
  rewrite run_bind, (Hside _), run_bind, Htp.
  cbn [first]. change (ret tp tr) with (Ok tp, tr). cbv beta iota.
  rewrite Hlane. eexists. reflexivity.
Qed.

(** C3. The parking lane on the requested side is checked once and early:
    when the lane next to the reference waypoint on the configured side is
    [None], the constructor raises, whatever the initialiser of
    [BasicScenario] would do, and it has made no simulator call by then,
    so no scenario actor is spawned.  With readable distance parameters
    the exception is the one of line 88. *)
Theorem missing_parking_lane_raises_before_base_init
    (super__init__ :
       ParkingExit -> string -> list carla.Actor ->
       ScenarioConfiguration -> bool -> bool -> M ParkingExit)
    (egos : list carla.Actor) (cfg : ScenarioConfiguration)
    (debug_mode criteria_enable : bool) (t : Q) (tr : Trace)
    (side : string) (tp : carla.Transform) (tps : list carla.Transform) :
  returns (parking_lane_side_parameter cfg) side ->
  trigger_points cfg = tp :: tps ->
  parking_lane_missing side tp ->
  exists e,
    __init__ super__init__ egos cfg debug_mode criteria_enable t tr
    = (Raise e, tr) /\
    (forall fd bd,
       returns (distance_parameter cfg "front_vehicle_distance" 20) fd ->
       returns (distance_parameter cfg "behind_vehicle_distance" 5) bd ->
       e = Exception ("Couldn't find parking point on the "
                        +:+ side +:+ " side")).
Proof.
  intros Hside Htp Hlane.
  destruct (init_attributes_raises cfg t tr side tp tps Hside Htp Hlane)
    as [e He].
  exists e. split.
  - unfold __init__. rewrite run_bind, He. reflexivity.
  - intros fd bd Hfd Hbd.
    rewrite (init_attributes_run cfg t fd bd side tp tps tr Hfd Hbd Hside Htp)
      in He.
    unfold parking_lane_missing in Hlane. rewrite Hlane in He.
    congruence.
Qed.

(** C4. The parking waypoint is looked up from the reference waypoint at
    the location of the first trigger point: the left lane of that
    waypoint when the configured side equals "left", its right lane for
    any other value, "right" being the side when the parameter is absent.
    It is this object that goes to the initialiser of the base class. *)
Theorem parking_waypoint_is_lane_on_configured_side
    (cfg : ScenarioConfiguration) (t : Q) (tr tr' : Trace)
    (self : ParkingExit) :
  init_attributes cfg t tr = (Ok self, tr') ->
  exists tp tps,
    trigger_points cfg = tp :: tps /\
    _trigger_location self = carla.location tp /\
    _reference_waypoint self = get_waypoint (carla.location tp) /\
    match other_parameters cfg !! "parking_lane_side" with
    | Some attrib => attrib !! "value" = Some (_parking_lane_side self)
    | None => _parking_lane_side self = "right"
    end /\
    (_parking_lane_side self = "left" ->
     get_left_lane (_reference_waypoint self)
     = Some (_parking_waypoint self)) /\
    (_parking_lane_side self <> "left" ->
     get_right_lane (_reference_waypoint self)
     = Some (_parking_waypoint self)) /\
    forall super__init__ egos debug_mode criteria_enable,
      __init__ super__init__ egos cfg debug_mode criteria_enable t tr
      = super__init__ self "ParkingExit" egos cfg debug_mode
          criteria_enable tr.
Proof.
  intros Hrun.
  destruct (init_attributes_Ok _ _ _ _ _ Hrun)
    as (fd & bd & side & tp & tps & pw & Hfd & Hbd & Hside & Htp & Hpw
        & -> & ->).
  exists tp, tps. cbn [built _trigger_location _reference_waypoint
                       _parking_lane_side _parking_waypoint].
  repeat split; try assumption.
  - specialize (Hside []). unfold parking_lane_side_parameter in Hside.
    destruct (other_parameters cfg !! "parking_lane_side") as [attrib|].
    + unfold getitem in Hside.
      destruct (attrib !! "value") as [v|]; [| discriminate].
      injection Hside as ->. reflexivity.
    + injection Hside as ->. reflexivity.
  - intros Hl. unfold parking_lane in Hpw.
    destruct (decide (side = "left")); [assumption | contradiction].
  - intros Hr. unfold parking_lane in Hpw.
    destruct (decide (side = "left")); [contradiction | assumption].
  - intros super egos dm ce. unfold __init__.
    rewrite run_bind, Hrun. reflexivity.
Qed.

(** *** The behaviour tree *)

Lemma fold_left_ActorDestroy (actors : list carla.Actor)
    (cs : list Behaviour) :
  fold_left (fun sequence actor => add_child sequence (ActorDestroy actor))
    actors (Sequence cs)
  = Sequence (cs ++ map ActorDestroy actors).
Proof.
  revert cs. induction actors as [|a actors IH]; intros cs; cbn.
  - rewrite app_nil_r. reflexivity.
  - rewrite IH, <- app_assoc. reflexivity.
Qed.

Lemma _create_behavior_returns self ego egos :
  ego_vehicles self = ego :: egos ->
  returns (_create_behavior self)
    (Sequence
       ([SwitchOutsideRouteLanesTest false;
         Parallel SUCCESS_ON_ONE
           [Sequence [DriveDistance ego (_end_distance self)]];
         SwitchOutsideRouteLanesTest true]
        ++ map ActorDestroy (other_actors self))).
Proof.
  intros Hego tr. unfold _create_behavior.
  rewrite run_bind, Hego. cbn [first]. change (ret ego tr) with (Ok ego, tr).
  cbv beta iota. cbn [add_child app].
  rewrite fold_left_ActorDestroy. reflexivity.
Qed.

(** C8. The end distance is the front vehicle distance plus 15.  Each of
    the two distances is what [float] makes of the [value] of its element
    when the configuration has the element, and the default, 20 in front
    and 5 behind, when it has not, so that the scenario then ends after
    35 m; the end distance is the threshold of the [DriveDistance]
    condition. *)
Theorem end_distance_is_front_distance_plus_15
    (cfg : ScenarioConfiguration) (t : Q) (tr tr' : Trace)
    (self : ParkingExit) :
  init_attributes cfg t tr = (Ok self, tr') ->
  _end_distance self = (_front_vehicle_distance self + 15)%Q /\
  (forall attrib,
     other_parameters cfg !! "front_vehicle_distance" = Some attrib ->
     exists v, attrib !! "value" = Some v /\
               float v = Ok (_front_vehicle_distance self)) /\
  (forall attrib,
     other_parameters cfg !! "behind_vehicle_distance" = Some attrib ->
     exists v, attrib !! "value" = Some v /\
               float v = Ok (_behind_vehicle_distance self)) /\
  (other_parameters cfg !! "front_vehicle_distance" = None ->
   _front_vehicle_distance self = 20%Q /\ _end_distance self = 35%Q) /\
  (other_parameters cfg !! "behind_vehicle_distance" = None ->
   _behind_vehicle_distance self = 5%Q) /\
  (forall ego egos,
     returns (_create_behavior (set_ego_vehicles self (ego :: egos)))
       (Sequence
          [SwitchOutsideRouteLanesTest false;
           Parallel SUCCESS_ON_ONE
             [Sequence
                [DriveDistance ego (_front_vehicle_distance self + 15)%Q]];
           SwitchOutsideRouteLanesTest true])).
Proof.
  intros Hrun.
  destruct (init_attributes_Ok _ _ _ _ _ Hrun)
    as (fd & bd & side & tp & tps & pw & Hfd & Hbd & Hside & Htp & Hpw
        & -> & ->).
  cbn [built _end_distance _front_vehicle_distance _behind_vehicle_distance].
  assert (Hread : forall name d q attrib,
            returns (distance_parameter cfg name d) q ->
            other_parameters cfg !! name = Some attrib ->
            exists v, attrib !! "value" = Some v /\ float v = Ok q).
  { intros name d q attrib Hq Hsome. specialize (Hq []).
    unfold distance_parameter in Hq. rewrite Hsome, run_bind in Hq.
    unfold getitem in Hq.
    destruct (attrib !! "value") as [v|]; [| discriminate Hq].
    exists v. split; [reflexivity |].
    injection Hq as Hf. exact Hf. }
  split; [reflexivity |].
  split; [intros attrib; apply (Hread _ _ _ _ Hfd) |].
  split; [intros attrib; apply (Hread _ _ _ _ Hbd) |].
  split; [| split].
  - intros Hnone. specialize (Hfd []). unfold distance_parameter in Hfd.
    rewrite Hnone in Hfd. injection Hfd as <-. split; reflexivity.
  - intros Hnone. specialize (Hbd []). unfold distance_parameter in Hbd.
    rewrite Hnone in Hbd. injection Hbd as <-. reflexivity.
  - intros ego egos.
    apply (_create_behavior_returns
             (set_ego_vehicles (built t fd bd side tp pw) (ego :: egos))
             ego egos).
    reflexivity.
Qed.


(** *** Successful runs of [_initialize_actors] *)

Lemma _initialize_actors_Ok self cfg tr self' tr' :
  _initialize_actors self cfg tr = (Ok self', tr') ->
  exists fp fps bp bps af ab ego egos lf lb le,
    next (_parking_waypoint self) (_front_vehicle_distance self)
      = fp :: fps /\
    previous (_parking_waypoint self) (_behind_vehicle_distance self)
      = bp :: bps /\
    ego_vehicles self = ego :: egos /\
    returns (_get_displaced_transform self af fp) lf /\
    returns (_get_displaced_transform self ab bp) lb /\
    returns (_get_displaced_transform self ego (_parking_waypoint self)) le /\
    tr' = tr ++ [vehicle_request fp (Some af); set_location_call af lf;
                 vehicle_request bp (Some ab); set_location_call ab lb;
                 set_location_call ego le] /\
    self' = set__ego_transform
              (set_other_actors self (other_actors self ++ [af; ab])) le.
Proof.
  intros Hrun. pose proof (_initialize_actors_run self cfg tr) as Hcase.
  rewrite Hrun in Hcase. cbn [fst snd] in Hcase.
  inversion Hcase; subst.
  exists fp, fps, bp, bps, af, ab, ego, egos, lf, lb, le.
  repeat split; assumption.
Qed.

(** C5. Every successful run of [_initialize_actors] places exactly three
    actors with the lateral-displacement formula, in this order: the
    vehicle spawned in front of the parking waypoint, the vehicle spawned
    behind it, and last the first ego vehicle; the two spawned vehicles
    are appended to [other_actors]. *)
Theorem initialize_actors_places_three_actors
    (self self' : ParkingExit) (cfg : ScenarioConfiguration)
    (tr tr' : Trace) :
  _initialize_actors self cfg tr = (Ok self', tr') ->
  exists fp fps bp bps af ab ego egos lf lb le,
    next (_parking_waypoint self) (_front_vehicle_distance self)
      = fp :: fps /\
    previous (_parking_waypoint self) (_behind_vehicle_distance self)
      = bp :: bps /\
    ego_vehicles self = ego :: egos /\
    returns (_get_displaced_transform self af fp) lf /\
    returns (_get_displaced_transform self ab bp) lb /\
    returns (_get_displaced_transform self ego (_parking_waypoint self)) le /\
    tr' = tr ++ [vehicle_request fp (Some af); set_location_call af lf;
                 vehicle_request bp (Some ab); set_location_call ab lb;
                 set_location_call ego le] /\
    other_actors self' = other_actors self ++ [af; ab] /\
    _ego_transform self' = Some le.
Proof.
  intros Hrun.
  destruct (_initialize_actors_Ok _ _ _ _ _ Hrun)
    as (fp & fps & bp & bps & af & ab & ego & egos & lf & lb & le
        & Hn & Hp & He & Hlf & Hlb & Hle & Htr & ->).
  exists fp, fps, bp, bps, af, ab, ego, egos, lf, lb, le.
  repeat split; assumption.
Qed.

(** C6. [_create_behavior] returns a [Sequence] of: the node that switches
    [OutsideRouteLanesTest] off; a [SUCCESS_ON_ONE] [Parallel] holding a
    [Sequence] with [DriveDistance] on the first ego vehicle and threshold
    [_end_distance]; the node that switches the test on again; and one
    [ActorDestroy] per actor of [other_actors], in order.  After
    [_initialize_actors] these are the front vehicle, then the vehicle
    behind, in the order of their spawn requests. *)
Theorem create_behavior_is_the_exit_sequence (self : ParkingExit) :
  (forall ego egos,
     ego_vehicles self = ego :: egos ->
     returns (_create_behavior self)
       (Sequence
          ([SwitchOutsideRouteLanesTest false;
            Parallel SUCCESS_ON_ONE
              [Sequence [DriveDistance ego (_end_distance self)]];
            SwitchOutsideRouteLanesTest true]
           ++ map ActorDestroy (other_actors self)))) /\
  (forall self0 cfg tr tr',
     other_actors self0 = [] ->
     _initialize_actors self0 cfg tr = (Ok self, tr') ->
     exists fp bp af ab ego lf lb le,
       tr' = tr ++ [vehicle_request fp (Some af); set_location_call af lf;
                    vehicle_request bp (Some ab); set_location_call ab lb;
                    set_location_call ego le] /\
       head (next (_parking_waypoint self0) (_front_vehicle_distance self0))
         = Some fp /\
       head (previous (_parking_waypoint self0)
               (_behind_vehicle_distance self0)) = Some bp /\
       head (ego_vehicles self) = Some ego /\
       returns (_create_behavior self)
         (Sequence
            [SwitchOutsideRouteLanesTest false;
             Parallel SUCCESS_ON_ONE
               [Sequence [DriveDistance ego (_end_distance self)]];
             SwitchOutsideRouteLanesTest true;
             ActorDestroy af; ActorDestroy ab])).
Proof.
  split.
  - intros ego egos Hego. apply (_create_behavior_returns self ego egos Hego).
  - intros self0 cfg tr tr' Hnone Hrun.
    destruct (_initialize_actors_Ok _ _ _ _ _ Hrun)
      as (fp & fps & bp & bps & af & ab & ego & egos & lf & lb & le
          & Hn & Hp & He & Hlf & Hlb & Hle & Htr & ->).
    exists fp, bp, af, ab, ego, lf, lb, le.
    rewrite Hn, Hp.
    cbn [ego_vehicles set__ego_transform set_other_actors].
    rewrite He. repeat split; try assumption.
    pose proof (_create_behavior_returns
      (set__ego_transform
         (set_other_actors self0 (other_actors self0 ++ [af; ab])) le)
      ego egos He) as Hb.
    cbn [other_actors set__ego_transform set_other_actors] in Hb.
    rewrite Hnone in Hb |- *. exact Hb.
Qed.

(** C9. [_create_test_criteria] returns the empty list in route mode, and
    otherwise the one-element list with a [CollisionTest] on the first ego
    vehicle. *)
Theorem create_test_criteria_by_route_mode (self : ParkingExit) :
  (route_mode self = true -> returns (_create_test_criteria self) []) /\
  (route_mode self = false ->
   forall ego egos, ego_vehicles self = ego :: egos ->
     returns (_create_test_criteria self) [CollisionTest ego]).
Proof.
  unfold _create_test_criteria. split.
  - intros ->. intros tr. reflexivity.
  - intros -> ego egos Hego tr. rewrite run_bind, Hego. reflexivity.
Qed.


(** *** Set-up as a whole *)

Lemma returns_inj {A} (m : M A) (a b : A) :
  returns m a -> returns m b -> a = b.
Proof. intros Ha Hb. specialize (Ha []). rewrite (Hb []) in Ha. congruence. Qed.

Lemma placed_of_returns self actor wp l :
  returns (_get_displaced_transform self actor wp) l ->
  placed (_parking_lane_side self) actor wp l.
Proof.
  intros Hl self2 Hside.
  rewrite (_get_displaced_transform_side self2 self) by exact Hside.
  exact Hl.
Qed.

Lemma scenario_setup_run ego_vs cfg dm ce t tr side tp tps fd bd :
  returns (distance_parameter cfg "front_vehicle_distance" 20) fd ->
  returns (distance_parameter cfg "behind_vehicle_distance" 5) bd ->
  returns (parking_lane_side_parameter cfg) side ->
  trigger_points cfg = tp :: tps ->
  scenario_setup ego_vs cfg dm ce t tr =
  match parking_lane side (get_waypoint (carla.location tp)) with
  | None =>
      (Raise (Exception ("Couldn't find parking point on the "
                           +:+ side +:+ " side")), tr)
  | Some pw =>
      _initialize_actors
        (set_other_actors (set_ego_vehicles (built t fd bd side tp pw) ego_vs)
           [])
        cfg tr
  end.
Proof.
  intros Hfd Hbd Hside Htp. unfold scenario_setup, __init__.
  rewrite run_bind,
    (init_attributes_run cfg t fd bd side tp tps tr Hfd Hbd Hside Htp).
  destruct (parking_lane side _); reflexivity.
Qed.

(** For an explicit list of calls: a refused request can only be the
    last one. *)
Ltac last_call_failed :=
  let i := fresh "i" in let ev := fresh "ev" in
  let Hi := fresh "Hi" in let Hf := fresh "Hf" in
  intros i ev Hi Hf;
  repeat (destruct i as [|i]; cbn in Hi;
          [injection Hi as <-; cbn in Hf; first [discriminate | reflexivity]
          |]);
  discriminate.

(** C2, amended. For a configuration that can be read (the distance
    parameters and the side have a value where they are given, the
    numbers parse, there is a trigger point) and at least one ego vehicle,
    scenario set-up raises exactly when data is missing: the parking lane
    on the requested side, a spawn position in front or behind, or the
    actor of a spawn request.  Nothing is retried: set-up asks for at most
    two actors, and a refused request is the last call it makes. *)
Theorem setup_raises_iff_missing_data
    (ego : carla.Actor) (egos : list carla.Actor)
    (cfg : ScenarioConfiguration) (debug_mode criteria_enable : bool)
    (t : Q) (tr : Trace) (side : string) (tp : carla.Transform)
    (tps : list carla.Transform) (fd bd : Q) :
  returns (distance_parameter cfg "front_vehicle_distance" 20) fd ->
  returns (distance_parameter cfg "behind_vehicle_distance" 5) bd ->
  returns (parking_lane_side_parameter cfg) side ->
  trigger_points cfg = tp :: tps ->
  (raises (scenario_setup (ego :: egos) cfg debug_mode criteria_enable t) tr
   <-> missing_data side tp fd bd tr) /\
  (forall e tr',
     scenario_setup (ego :: egos) cfg debug_mode criteria_enable t tr
     = (Raise e, tr') ->
     exists calls,
       tr' = tr ++ calls /\
       (length (List.filter is_request calls) <= 2)%nat /\
       forall i ev, calls !! i = Some ev -> failed_request ev = true ->
         S i = length calls).
Proof.
  intros Hfd Hbd Hside Htp. unfold raises.
  rewrite (scenario_setup_run _ cfg debug_mode criteria_enable t tr side tp tps
             fd bd Hfd Hbd Hside Htp).
  unfold missing_data, parking_lane_missing.
  destruct (parking_lane side (get_waypoint (carla.location tp)))
    as [pw|] eqn:Hlane.
  2: { split.
       - split; [intros _; left; reflexivity | intros _; eexists _, _; reflexivity].
       - intros e tr' Heq. injection Heq as _ <-. exists [].
         rewrite app_nil_r. split; [reflexivity |]. split; [cbn; lia |].
         last_call_failed. }
  set (self0 := set_other_actors
                  (set_ego_vehicles (built t fd bd side tp pw) (ego :: egos))
                  []).
  pose proof (_initialize_actors_run self0 cfg tr) as Hcase.
  destruct (_initialize_actors self0 cfg tr) as [r tr1].
  cbn [fst snd] in Hcase.
  assert (Hside0 : _parking_lane_side self0 = side) by reflexivity.
  inversion Hcase as
    [ Hn | fp fps Hn Hf | fp fps af lf Hn Hf Hlf Hp
    | fp fps af lf bp bps Hn Hf Hlf Hp Hb
    | fp fps af lf bp bps ab lb Hn Hf Hlf Hp Hb Hlb He
    | fp fps af lf bp bps ab lb ego' egos' le Hn Hf Hlf Hp Hb Hlb He Hle ];
    subst r; try subst tr1;
    cbn [self0 built set_other_actors set_ego_vehicles _parking_waypoint
         _front_vehicle_distance _behind_vehicle_distance ego_vehicles]
      in Hn |- *.
  - (* no position in front *)
    split.
    + split; [intros _ | intros _; eexists _, _; reflexivity].
      right. exists pw. split; [reflexivity |]. left. left. exact Hn.
    + intros e tr' Heq. injection Heq as _ <-. exists [].
      rewrite app_nil_r. split; [reflexivity |]. split; [cbn; lia |].
      last_call_failed.
  - (* front spawn refused *)
    split.
    + split; [intros _ | intros _; eexists _, _; reflexivity].
      right. exists pw. split; [reflexivity |]. right.
      exists fp, fps. split; [exact Hn |]. left. exact Hf.
    + intros e tr' Heq. injection Heq as _ <-. eexists.
      split; [reflexivity |]. split; [cbn; lia |]. last_call_failed.
  - (* no position behind *)
    split.
    + split; [intros _ | intros _; eexists _, _; reflexivity].
      right. exists pw. split; [reflexivity |]. left. right. exact Hp.
    + intros e tr' Heq. injection Heq as _ <-. eexists.
      split; [reflexivity |]. split; [cbn; lia |]. last_call_failed.
  - (* behind spawn refused *)
    split.
    + split; [intros _ | intros _; eexists _, _; reflexivity].
      right. exists pw. split; [reflexivity |]. right.
      exists fp, fps. split; [exact Hn |]. right.
      exists af, lf, bp, bps. repeat split; try assumption.
      rewrite <- Hside0. apply placed_of_returns, Hlf.
    + intros e tr' Heq. injection Heq as _ <-. eexists.
      split; [reflexivity |]. split; [cbn; lia |]. last_call_failed.
  - (* there is an ego vehicle *)
    discriminate He.
  - (* success *)
    split.
    + split.
      * intros (e & tr' & Heq). discriminate Heq.
      * intros [Hmiss | (pw' & Hpw' & [[Hn' | Hp'] | Hfail])].
        -- discriminate Hmiss.
        -- injection Hpw' as <-. rewrite Hn in Hn'. discriminate Hn'.
        -- injection Hpw' as <-. cbn in Hp. rewrite Hp in Hp'.
           discriminate Hp'.
        -- injection Hpw' as <-.
           destruct Hfail as (fp' & fps' & Hn' & Hfail).
           rewrite Hn in Hn'. injection Hn' as <- <-.
           destruct Hfail as [Hf' | (af' & lf' & bp' & bps' & Hf' & Hlf'
                                     & Hp' & Hb')].
           ++ rewrite Hf in Hf'. discriminate Hf'.
           ++ rewrite Hf in Hf'. injection Hf' as <-.
              cbn in Hp. rewrite Hp in Hp'. injection Hp' as <- <-.
              assert (lf' = lf) as ->
                by exact (returns_inj _ _ _ (Hlf' self0 Hside0) Hlf).
              rewrite Hb in Hb'. discriminate Hb'.
    + intros e tr' Heq. discriminate Heq.
Qed.

End Setup.

(** ** The theorems on the sample road *)

(** C7 on the sample road, parked on the left: the car goes 1/2 against
    the right vector and 0.05 up. *)
Lemma displaced_location_formula_witness :
  exists loc : carla.Location,
    returns (@_get_displaced_transform Town.sim
               (Town.parked "left" [Town.ego] [] false) Town.ego
               (_parking_waypoint (Town.parked "left" [Town.ego] [] false)))
            loc /\
    carla.x loc == 0 /\ carla.y loc == 11 # 4 /\ carla.z loc == 1 # 20.
Proof.
  destruct (@displaced_location_formula Town.sim
              (Town.parked "left" [Town.ego] [] false) Town.ego
              (_parking_waypoint (Town.parked "left" [Town.ego] [] false)))
    as (loc & Hret & Hleft & _).
  exists loc. split; [exact Hret |].
  destruct (Hleft eq_refl) as (Hx & Hy & Hz).
  rewrite Hx, Hy, Hz. repeat split; vm_compute; reflexivity.
Defined.

(** C9 on the sample road, outside route mode. *)
Lemma create_test_criteria_by_route_mode_witness :
  returns (_create_test_criteria
             (Town.parked "right" [Town.ego] [] false))
          [CollisionTest Town.ego].
Proof.
  apply (proj2 (create_test_criteria_by_route_mode
                  (Town.parked "right" [Town.ego] [] false))
           eq_refl Town.ego []).
  reflexivity.
Defined.

(** C6 on the sample road, with two blocking vehicles. *)
Lemma create_behavior_is_the_exit_sequence_witness :
  returns (_create_behavior
             (Town.parked "right" [Town.ego]
                [carla.mkActor 0 Town.car; carla.mkActor 2 Town.car] false))
          (Sequence
             [SwitchOutsideRouteLanesTest false;
              Parallel SUCCESS_ON_ONE
                [Sequence [DriveDistance Town.ego 35]];
              SwitchOutsideRouteLanesTest true;
              ActorDestroy (carla.mkActor 0 Town.car);
              ActorDestroy (carla.mkActor 2 Town.car)]).
Proof.
  apply (proj1 (@create_behavior_is_the_exit_sequence Town.sim
                  (Town.parked "right" [Town.ego]
                     [carla.mkActor 0 Town.car; carla.mkActor 2 Town.car]
                     false))
           Town.ego []).
  reflexivity.
Defined.

(** C5 on the sample road: the run succeeds with five simulator calls and
    leaves two spawned cars in [other_actors]. *)
Lemma initialize_actors_places_three_actors_witness :
  exists self' tr' af ab,
    @_initialize_actors Town.sim (Town.parked "right" [Town.ego] [] false)
      Town.config_default []
    = (Ok self', tr') /\
    other_actors self' = [af; ab] /\ length tr' = 5%nat.
Proof.
  destruct (@_initialize_actors Town.sim
              (Town.parked "right" [Town.ego] [] false)
              Town.config_default []) as [r tr'] eqn:Hrun.
  assert (Hok : exists self', r = Ok self').
  { vm_compute in Hrun. injection Hrun as <- _. eexists. reflexivity. }
  destruct Hok as [self' ->].
  destruct (@initialize_actors_places_three_actors Town.sim _ _ _ _ _ Hrun)
    as (fp & fps & bp & bps & af & ab & ego & egos & lf & lb & le
        & Hn & Hp & He & Hlf & Hlb & Hle & Htr & Hoa & _).
  exists self', tr', af, ab. split; [reflexivity |].
  split; [exact Hoa | rewrite Htr; reflexivity].
Defined.

(** C4 on the sample road, with the side given as "right". *)
Lemma parking_waypoint_is_lane_on_configured_side_witness :
  exists self,
    @init_attributes Town.sim Town.config_right 180 [] = (Ok self, []) /\
    _parking_lane_side self = "right" /\
    @get_right_lane Town.sim (_reference_waypoint self)
    = Some (_parking_waypoint self).
Proof.
  destruct (@init_attributes Town.sim Town.config_right 180 [])
    as [r tr'] eqn:Hrun.
  assert (Hok : exists self, r = Ok self /\ tr' = []
                             /\ _parking_lane_side self = "right").
  { vm_compute in Hrun. injection Hrun as <- <-. eexists.
    repeat split; reflexivity. }
  destruct Hok as (self & -> & -> & Hside).
  destruct (@parking_waypoint_is_lane_on_configured_side Town.sim _ _ _ _ _
              Hrun)
    as (tp & tps & _ & _ & _ & _ & _ & Hright & _).
  exists self. split; [reflexivity |]. split; [exact Hside |].
  apply Hright. rewrite Hside. discriminate.
Defined.

(** C8 on the sample road: with no distance in the configuration the
    scenario ends after 20 + 15 = 35 m, and with 30 in front and 8 behind
    after 30 + 15 = 45 m. *)
Lemma end_distance_is_front_distance_plus_15_witness :
  (exists self,
     @init_attributes Town.sim Town.config_default 180 [] = (Ok self, []) /\
     _front_vehicle_distance self = 20%Q /\
     _behind_vehicle_distance self = 5%Q /\
     _end_distance self = 35%Q) /\
  (exists self,
     @init_attributes Town.sim Town.config_right 180 [] = (Ok self, []) /\
     _front_vehicle_distance self = 30%Q /\
     _behind_vehicle_distance self = 8%Q /\
     _end_distance self = 45%Q).
Proof.
  split.
  - destruct (@init_attributes Town.sim Town.config_default 180 [])
      as [r tr'] eqn:Hrun.
    assert (Hok : exists self, r = Ok self /\ tr' = []).
    { vm_compute in Hrun. injection Hrun as <- <-. eexists.
      split; reflexivity. }
    destruct Hok as (self & -> & ->).
    destruct (@end_distance_is_front_distance_plus_15 Town.sim _ _ _ _ _
                Hrun)
      as (_ & _ & _ & Hfront & Hbehind & _).
    exists self. split; [reflexivity |].
    destruct (Hfront eq_refl) as [Hf He].
    split; [exact Hf |]. split; [exact (Hbehind eq_refl) | exact He].
  - destruct (@init_attributes Town.sim Town.config_right 180 [])
      as [r tr'] eqn:Hrun.
    assert (Hok : exists self, r = Ok self /\ tr' = []).
    { vm_compute in Hrun. injection Hrun as <- <-. eexists.
      split; reflexivity. }
    destruct Hok as (self & -> & ->).
    destruct (@end_distance_is_front_distance_plus_15 Town.sim _ _ _ _ _
                Hrun)
      as (Hend & Hfront & Hbehind & _).
    exists self. split; [reflexivity |].
    destruct (Hfront {["value" := "30"]} eq_refl) as (vf & Hvf & Hff).
    destruct (Hbehind {["value" := "8"]} eq_refl) as (vb & Hvb & Hfb).
    injection Hvf as <-. injection Hvb as <-.
    injection Hff as Hf30. injection Hfb as Hb8.
    split; [symmetry; exact Hf30 |]. split; [symmetry; exact Hb8 |].
    rewrite Hend, <- Hf30. reflexivity.
Defined.

(** C3 on the sample road: there is no lane on the left, so asking for
    the left side raises before anything is spawned. *)
Lemma missing_parking_lane_raises_before_base_init_witness :
  @__init__ Town.sim (@BasicScenario__init__ Town.sim) [Town.ego]
    Town.config_left false true 180 []
  = (Raise (Exception "Couldn't find parking point on the left side"), []).
Proof.
  destruct (@missing_parking_lane_raises_before_base_init Town.sim
              (@BasicScenario__init__ Town.sim) [Town.ego] Town.config_left
              false true 180 [] "left" Town.origin [])
    as (e & Hrun & Hexn).
  - intros tr. reflexivity.
  - reflexivity.
  - reflexivity.
  - rewrite Hrun. rewrite (Hexn 20%Q 5%Q).
    + reflexivity.
    + intros tr. reflexivity.
    + intros tr. reflexivity.
Defined.

(** C2, amended, on the sample road: with the left side requested the
    parking lane is missing, and set-up raises. *)
Lemma setup_raises_iff_missing_data_witness :
  raises (@scenario_setup Town.sim [Town.ego] Town.config_left false true 180)
    [].
Proof.
  destruct (@setup_raises_iff_missing_data Town.sim Town.ego []
              Town.config_left false true 180 [] "left" Town.origin [] 20 5)
    as [Hiff _].
  - intros tr. reflexivity.
  - intros tr. reflexivity.
  - intros tr. reflexivity.
  - reflexivity.
  - apply Hiff. left. reflexivity.
Defined.

(** C2 as stated fails: set-up also raises where no data of the three
    kinds is missing.  On the sample road every waypoint has a right
    lane, a waypoint ahead and one behind, and every spawn request is
    granted; yet a [front_vehicle_distance] element without its [value]
    raises [KeyError], and an empty list of ego vehicles raises
    [IndexError] after both blocking vehicles were spawned and placed. *)
Lemma setup_raises_without_missing_data :
  (forall wp, @parking_lane Town.sim "right" wp <> None) /\
  (forall wp d, @next Town.sim wp d <> [] /\ @previous Town.sim wp d <> []) /\
  (forall tr wp, @vehicle_answer Town.sim tr wp <> None) /\
  returns (@parking_lane_side_parameter Town.config_no_value) "right" /\
  @scenario_setup Town.sim [Town.ego] Town.config_no_value false true 180 []
  = (Raise (KeyError "value"), []) /\
  returns (@parking_lane_side_parameter Town.config_default) "right" /\
  exists tr',
    @scenario_setup Town.sim [] Town.config_default false true 180 []
    = (Raise (IndexError "list index out of range"), tr') /\
    length tr' = 4%nat.
Proof.
  split; [intros wp; discriminate |].
  split; [intros wp d; split; discriminate |].
  split; [intros tr wp; discriminate |].
  split; [intros tr; reflexivity |].
  split; [vm_compute; reflexivity |].
  split; [intros tr; reflexivity |].
  exists (@scenario_setup Town.sim [] Town.config_default false true 180 []).2.
  split; vm_compute; reflexivity.
Qed.

(** ** More on the displaced location *)

Section MoreDisplacement.

Context `{Simulator}.

(** The location, by components. *)
Lemma _get_displaced_transform_components self actor wp :
  exists loc : carla.Location,
    returns (_get_displaced_transform self actor wp) loc /\
    let d := ((carla.lane_width wp
               - carla.y (carla.extent (carla.bounding_box actor))) / 4)%Q in
    let s := (if decide (_parking_lane_side self = "left") then -1 else 1)%Q in
    let w := carla.location (carla.transform wp) in
    let right := get_right_vector (carla.transform wp) in
    carla.x loc == carla.x w + s * d * carla.x right /\
    carla.y loc == carla.y w + s * d * carla.y right /\
    carla.z loc == carla.z w + s * d * carla.z right + (5 # 100).
Proof.
  eexists. split; [intros tr; reflexivity |].
  cbv zeta. unfold carla.add, carla.imul.
  destruct (decide (_parking_lane_side self = "left")); simpl;
    repeat split; ring.
Qed.

(** X6. The two sides mirror each other: for the same actor and waypoint,
    the location on the left and the location on the right (any side
    other than "left") have the waypoint's location, lifted by 0.05, as
    their midpoint. *)
Theorem displaced_left_and_right_mirror
    (left right : ParkingExit) (actor : carla.Actor) (wp : carla.Waypoint) :
  _parking_lane_side left = "left" ->
  _parking_lane_side right <> "left" ->
  exists l r : carla.Location,
    returns (_get_displaced_transform left actor wp) l /\
    returns (_get_displaced_transform right actor wp) r /\
    let w := carla.location (carla.transform wp) in
    carla.x l + carla.x r == 2 * carla.x w /\
    carla.y l + carla.y r == 2 * carla.y w /\
    carla.z l + carla.z r == 2 * carla.z w + (1 # 10).
Proof.
  intros Hl Hr.
  destruct (_get_displaced_transform_components left actor wp)
    as (l & Hlret & Hlx & Hly & Hlz).
  destruct (_get_displaced_transform_components right actor wp)
    as (r & Hrret & Hrx & Hry & Hrz).
  exists l, r. split; [exact Hlret |]. split; [exact Hrret |].
  cbv zeta in *.
  destruct (decide (_parking_lane_side left = "left")); [| contradiction].
  destruct (decide (_parking_lane_side right = "left")); [contradiction |].
  rewrite Hlx, Hly, Hlz, Hrx, Hry, Hrz. repeat split; ring.
Qed.

(** X7. An actor that is not wider than the lane stays near its centre
    line: with [0 <= extent.y <= lane_width] and a right vector of length
    one, the move away from the waypoint (the 0.05 lift apart) is at most
    a quarter of the lane width. *)
Theorem displacement_within_quarter_lane
    (self : ParkingExit) (actor : carla.Actor) (wp : carla.Waypoint) :
  (0 <= carla.y (carla.extent (carla.bounding_box actor)))%Q ->
  (carla.y (carla.extent (carla.bounding_box actor))
   <= carla.lane_width wp)%Q ->
  carla.norm2 (get_right_vector (carla.transform wp)) == 1 ->
  exists loc : carla.Location,
    returns (_get_displaced_transform self actor wp) loc /\
    let w := carla.location (carla.transform wp) in
    (carla.norm2
       (carla.mkVector3D (carla.x loc - carla.x w) (carla.y loc - carla.y w)
          (carla.z loc - (5 # 100) - carla.z w))
     <= (carla.lane_width wp / 4) * (carla.lane_width wp / 4))%Q.
Proof.
  intros H0 Hle Hunit.
  destruct (_get_displaced_transform_components self actor wp)
    as (loc & Hret & Hx & Hy & Hz).
  exists loc. split; [exact Hret |]. cbv zeta in *.
  set (e := carla.y (carla.extent (carla.bounding_box actor))) in *.
  set (lw := carla.lane_width wp) in *.
  set (rv := get_right_vector (carla.transform wp)) in *.
  set (s := (if decide (_parking_lane_side self = "left") then -1 else 1)%Q)
    in *.
  assert (Hs : s * s == 1) by (subst s; destruct (decide _); reflexivity).
  assert (Hmove :
    carla.norm2
      (carla.mkVector3D
         (carla.x loc - carla.x (carla.location (carla.transform wp)))
         (carla.y loc - carla.y (carla.location (carla.transform wp)))
         (carla.z loc - (5 # 100)
          - carla.z (carla.location (carla.transform wp))))
    == ((lw - e) / 4) * ((lw - e) / 4)).
  { unfold carla.norm2 in *. cbn [carla.x carla.y carla.z].
    rewrite Hx, Hy, Hz.
    transitivity ((s * s) * (((lw - e) / 4) * ((lw - e) / 4))
                  * (carla.x rv * carla.x rv + carla.y rv * carla.y rv
                     + carla.z rv * carla.z rv))%Q; [field |].
    rewrite Hs, Hunit. ring. }
  rewrite Hmove.
  apply Qmult_le_compat_nonneg; unfold Qdiv; change (/ 4) with (1 # 4);
    split; lra.
Qed.

(** X8. There is no clamp on the displacement.  Measured along the right
    vector, an actor narrower than the lane moves towards the right on the
    right side and towards the left on the left side; an actor exactly as
    wide as the lane stays on the waypoint; and an actor wider than the
    lane moves to the opposite side. *)
Theorem displacement_direction
    (self : ParkingExit) (actor : carla.Actor) (wp : carla.Waypoint) :
  (0 < carla.norm2 (get_right_vector (carla.transform wp)))%Q ->
  exists loc : carla.Location,
    returns (_get_displaced_transform self actor wp) loc /\
    let e := carla.y (carla.extent (carla.bounding_box actor)) in
    let lw := carla.lane_width wp in
    let w := carla.location (carla.transform wp) in
    let right := get_right_vector (carla.transform wp) in
    let along :=
      ((carla.x loc - carla.x w) * carla.x right
       + (carla.y loc - carla.y w) * carla.y right
       + (carla.z loc - (5 # 100) - carla.z w) * carla.z right)%Q in
    (_parking_lane_side self <> "left" ->
     (e < lw -> 0 < along)%Q /\ (e == lw -> along == 0)
     /\ (lw < e -> along < 0)%Q) /\
    (_parking_lane_side self = "left" ->
     (e < lw -> along < 0)%Q /\ (e == lw -> along == 0)
     /\ (lw < e -> 0 < along)%Q).
Proof.
  intros Hpos.
  destruct (_get_displaced_transform_components self actor wp)
    as (loc & Hret & Hx & Hy & Hz).
  exists loc. split; [exact Hret |]. cbv zeta in *.
  set (e := carla.y (carla.extent (carla.bounding_box actor))) in *.
  set (lw := carla.lane_width wp) in *.
  set (rv := get_right_vector (carla.transform wp)) in *.
  set (n := carla.norm2 rv) in *.
  assert (Halong : forall s : Q,
    carla.x loc == carla.x (carla.location (carla.transform wp))
                   + s * ((lw - e) / 4) * carla.x rv ->
    carla.y loc == carla.y (carla.location (carla.transform wp))
                   + s * ((lw - e) / 4) * carla.y rv ->
    carla.z loc == carla.z (carla.location (carla.transform wp))
                   + s * ((lw - e) / 4) * carla.z rv + (5 # 100) ->
    (carla.x loc - carla.x (carla.location (carla.transform wp)))
      * carla.x rv
    + (carla.y loc - carla.y (carla.location (carla.transform wp)))
      * carla.y rv
    + (carla.z loc - (5 # 100)
       - carla.z (carla.location (carla.transform wp))) * carla.z rv
    == s * ((lw - e) / 4) * n).
  { intros s Hsx Hsy Hsz. rewrite Hsx, Hsy, Hsz.
    subst n. unfold carla.norm2. field. }
  destruct (decide (_parking_lane_side self = "left")) as [Hl | Hr].
  - split; [intros Hne; contradiction | intros _].
    rewrite (Halong (-1)%Q Hx Hy Hz).
    unfold Qdiv; change (/ 4) with (1 # 4).
    repeat split; intros Hcmp; nra.
  - split; [intros _ | intros Hl; contradiction].
    rewrite (Halong 1%Q Hx Hy Hz).
    unfold Qdiv; change (/ 4) with (1 # 4).
    repeat split; intros Hcmp; nra.
Qed.

End MoreDisplacement.

(** ** More on the constructor, and [convert_dict_to_location] *)

Section MoreSetup.

Context `{Simulator}.

(** *** Reading the configuration *)

Lemma distance_parameter_reads cfg name d q :
  returns (distance_parameter cfg name d) q <-> reads_distance cfg name d q.
Proof.
  unfold distance_parameter, reads_distance.
  destruct (other_parameters cfg !! name) as [attrib|].
  - unfold getitem. destruct (attrib !! "value") as [v|].
    + split.
      * intros Hret. specialize (Hret []). exists v. split; [reflexivity |].
        rewrite run_bind in Hret. injection Hret as Hf. exact Hf.
      * intros (v' & Hv & Hf) tr. injection Hv as <-.
        rewrite run_bind. change (ret v tr) with (Ok v, tr). cbv beta iota.
        unfold lift. rewrite Hf. reflexivity.
    + split.
      * intros Hret. specialize (Hret []). discriminate Hret.
      * intros (v' & Hv & _). discriminate Hv.
  - split.
    + intros Hret. specialize (Hret []). injection Hret as <-. reflexivity.
    + intros -> tr. reflexivity.
Qed.

Lemma parking_lane_side_parameter_reads cfg side :
  returns (parking_lane_side_parameter cfg) side <-> reads_side cfg side.
Proof.
  unfold parking_lane_side_parameter, reads_side.
  destruct (other_parameters cfg !! "parking_lane_side") as [attrib|].
  - unfold getitem. destruct (attrib !! "value") as [v|].
    + split.
      * intros Hret. specialize (Hret []). injection Hret as <-. reflexivity.
      * intros Hv tr. injection Hv as <-. reflexivity.
    + split.
      * intros Hret. specialize (Hret []). discriminate Hret.
      * intros Hv. discriminate Hv.
  - split.
    + intros Hret. specialize (Hret []). injection Hret as <-. reflexivity.
    + intros -> tr. reflexivity.
Qed.

Lemma distance_parameter_lacks_value cfg name d tr :
  lacks_value cfg name ->
  distance_parameter cfg name d tr = (Raise (KeyError "value"), tr).
Proof.
  intros (attrib & Hattrib & Hnone). unfold distance_parameter.
  rewrite Hattrib, run_bind. unfold getitem. rewrite Hnone. reflexivity.
Qed.

(** X4. Lines 56-89 of the constructor build an object exactly when the
    configuration reads (each distance absent, or with a [value] that
    [float] accepts; the side absent, or with a [value]), there is a
    trigger point, and the lane on the requested side exists; the object
    then holds what was read, and no simulator call was made. *)
Theorem constructor_builds_iff_readable_and_lane
    (cfg : ScenarioConfiguration) (t : Q) (tr tr' : Trace)
    (self : ParkingExit) :
  init_attributes cfg t tr = (Ok self, tr') <->
  tr' = tr /\
  exists fd bd side tp tps pw,
    reads_distance cfg "front_vehicle_distance" 20 fd /\
    reads_distance cfg "behind_vehicle_distance" 5 bd /\
    reads_side cfg side /\
    trigger_points cfg = tp :: tps /\
    parking_lane side (get_waypoint (carla.location tp)) = Some pw /\
    self = built t fd bd side tp pw.
Proof.
  split.
  - intros Hrun.
    destruct (init_attributes_Ok _ _ _ _ _ Hrun)
      as (fd & bd & side & tp & tps & pw & Hfd & Hbd & Hside & Htp & Hpw
          & -> & ->).
    split; [reflexivity |].
    exists fd, bd, side, tp, tps, pw.
    rewrite <- !distance_parameter_reads, <- parking_lane_side_parameter_reads.
    repeat split; assumption.
  - intros (-> & fd & bd & side & tp & tps & pw & Hfd & Hbd & Hside & Htp
            & Hpw & ->).
    rewrite <- distance_parameter_reads in Hfd, Hbd.
    rewrite <- parking_lane_side_parameter_reads in Hside.
    rewrite (init_attributes_run cfg t fd bd side tp tps tr Hfd Hbd Hside Htp).
    rewrite Hpw. reflexivity.
Qed.

(** X3. The constructor makes no simulator call of its own: either
    lines 56-89 build an object and the base class is called with it on
    the unchanged trace, or they raise and the constructor raises the same
    exception on the unchanged trace, the base class never being called. *)
Theorem constructor_makes_no_simulator_call
    (super__init__ :
       ParkingExit -> string -> list carla.Actor ->
       ScenarioConfiguration -> bool -> bool -> M ParkingExit)
    (egos : list carla.Actor) (cfg : ScenarioConfiguration)
    (debug_mode criteria_enable : bool) (t : Q) (tr : Trace) :
  (exists self,
     init_attributes cfg t tr = (Ok self, tr) /\
     __init__ super__init__ egos cfg debug_mode criteria_enable t tr
     = super__init__ self "ParkingExit" egos cfg debug_mode criteria_enable
         tr) \/
  (exists e,
     init_attributes cfg t tr = (Raise e, tr) /\
     __init__ super__init__ egos cfg debug_mode criteria_enable t tr
     = (Raise e, tr)).
Proof.
  pose proof (init_attributes_trace cfg t tr) as Htr.
  unfold __init__. rewrite run_bind.
  destruct (init_attributes cfg t tr) as [[self | e] tr1];
    cbn [snd] in Htr; subst tr1.
  - left. exists self. split; reflexivity.
  - right. exists e. split; reflexivity.
Qed.

(** X5. What an unreadable configuration raises, in the order in which
    the constructor reads it: [KeyError('value')] for a
    [front_vehicle_distance], then [behind_vehicle_distance], then
    [parking_lane_side] element that has no [value], and [IndexError] for
    an empty list of trigger points; each time without a simulator call
    and without calling the base class. *)
Theorem constructor_raises_on_unreadable_configuration
    (super__init__ :
       ParkingExit -> string -> list carla.Actor ->
       ScenarioConfiguration -> bool -> bool -> M ParkingExit)
    (egos : list carla.Actor) (cfg : ScenarioConfiguration)
    (debug_mode criteria_enable : bool) (t : Q) (tr : Trace) :
  let run :=
    __init__ super__init__ egos cfg debug_mode criteria_enable t tr in
  (lacks_value cfg "front_vehicle_distance" ->
   run = (Raise (KeyError "value"), tr)) /\
  (forall fd,
     reads_distance cfg "front_vehicle_distance" 20 fd ->
     lacks_value cfg "behind_vehicle_distance" ->
     run = (Raise (KeyError "value"), tr)) /\
  (forall fd bd,
     reads_distance cfg "front_vehicle_distance" 20 fd ->
     reads_distance cfg "behind_vehicle_distance" 5 bd ->
     lacks_value cfg "parking_lane_side" ->
     run = (Raise (KeyError "value"), tr)) /\
  (forall fd bd side,
     reads_distance cfg "front_vehicle_distance" 20 fd ->
     reads_distance cfg "behind_vehicle_distance" 5 bd ->
     reads_side cfg side ->
     trigger_points cfg = [] ->
     run = (Raise (IndexError "list index out of range"), tr)).
Proof.
  cbv zeta. unfold __init__, init_attributes.
  split; [| split; [| split]].
  - intros Hlack. rewrite !run_bind.
    rewrite (distance_parameter_lacks_value _ _ _ _ Hlack). reflexivity.
  - intros fd Hfd Hlack. rewrite <- distance_parameter_reads in Hfd.
    rewrite !run_bind, (Hfd _), run_bind.
    rewrite (distance_parameter_lacks_value _ _ _ _ Hlack). reflexivity.
  - intros fd bd Hfd Hbd (attrib & Hattrib & Hnone).
    rewrite <- distance_parameter_reads in Hfd, Hbd.
    rewrite !run_bind, (Hfd _), run_bind, (Hbd _), run_bind.
    unfold parking_lane_side_parameter, getitem.
    rewrite Hattrib, Hnone. reflexivity.
  - intros fd bd side Hfd Hbd Hside Htp.
    rewrite <- distance_parameter_reads in Hfd, Hbd.
    rewrite <- parking_lane_side_parameter_reads in Hside.
    rewrite !run_bind, (Hfd _), run_bind, (Hbd _), run_bind, (Hside _),
      run_bind, Htp.
    reflexivity.
Qed.

(** *** [convert_dict_to_location] *)

(** X1. [convert_dict_to_location] returns a location exactly when the
    dict has the keys x, y and z with values that [float] accepts; the
    coordinates are those numbers, and other keys are ignored. *)
Theorem convert_dict_to_location_returns_iff
    (actor_dict : gmap string string) (l : carla.Location) :
  returns (convert_dict_to_location actor_dict) l <->
  exists sx sy sz,
    actor_dict !! "x" = Some sx /\ actor_dict !! "y" = Some sy /\
    actor_dict !! "z" = Some sz /\
    float sx = Ok (carla.x l) /\ float sy = Ok (carla.y l) /\
    float sz = Ok (carla.z l).
Proof.
  unfold convert_dict_to_location, getitem, lift. split.
  - intros Hret. specialize (Hret []). revert Hret.
    rewrite run_bind.
    destruct (actor_dict !! "x") as [sx|]; [| discriminate].
    change (ret sx []) with (Ok sx, @nil Event). cbv beta iota.
    rewrite run_bind. destruct (float sx) as [qx|] eqn:Hfx; [| discriminate].
    rewrite run_bind.
    destruct (actor_dict !! "y") as [sy|]; [| discriminate].
    change (ret sy []) with (Ok sy, @nil Event). cbv beta iota.
    rewrite run_bind. destruct (float sy) as [qy|] eqn:Hfy; [| discriminate].
    rewrite run_bind.
    destruct (actor_dict !! "z") as [sz|]; [| discriminate].
    change (ret sz []) with (Ok sz, @nil Event). cbv beta iota.
    rewrite run_bind. destruct (float sz) as [qz|] eqn:Hfz; [| discriminate].
    intros Heq. injection Heq as <-.
    exists sx, sy, sz. repeat split; assumption.
  - intros (sx & sy & sz & Hx & Hy & Hz & Hfx & Hfy & Hfz) tr.
    rewrite Hx, Hy, Hz.
    rewrite run_bind. change (ret sx tr) with (Ok sx, tr). cbv beta iota.
    rewrite run_bind, Hfx, run_bind.
    change (ret sy tr) with (Ok sy, tr). cbv beta iota.
    rewrite run_bind, Hfy, run_bind.
    change (ret sz tr) with (Ok sz, tr). cbv beta iota.
    rewrite run_bind, Hfz. destruct l; reflexivity.
Qed.

(** X2. [convert_dict_to_location] makes no simulator call, and reports
    the first coordinate that fails, in the order x, y, z: a missing key
    raises [KeyError] of that key, and a value that [float] refuses raises
    what [float] raises, whatever the later coordinates are. *)
Theorem convert_dict_to_location_first_failure
    (actor_dict : gmap string string) (tr : Trace) :
  let run := convert_dict_to_location actor_dict tr in
  run.2 = tr /\
  (actor_dict !! "x" = None -> run = (Raise (KeyError "x"), tr)) /\
  (forall sx e,
     actor_dict !! "x" = Some sx -> float sx = Raise e ->
     run = (Raise e, tr)) /\
  (forall sx qx,
     actor_dict !! "x" = Some sx -> float sx = Ok qx ->
     actor_dict !! "y" = None -> run = (Raise (KeyError "y"), tr)) /\
  (forall sx qx sy e,
     actor_dict !! "x" = Some sx -> float sx = Ok qx ->
     actor_dict !! "y" = Some sy -> float sy = Raise e ->
     run = (Raise e, tr)) /\
  (forall sx qx sy qy,
     actor_dict !! "x" = Some sx -> float sx = Ok qx ->
     actor_dict !! "y" = Some sy -> float sy = Ok qy ->
     actor_dict !! "z" = None -> run = (Raise (KeyError "z"), tr)) /\
  (forall sx qx sy qy sz e,
     actor_dict !! "x" = Some sx -> float sx = Ok qx ->
     actor_dict !! "y" = Some sy -> float sy = Ok qy ->
     actor_dict !! "z" = Some sz -> float sz = Raise e ->
     run = (Raise e, tr)).
Proof.
  cbv zeta. unfold convert_dict_to_location, getitem, lift.
  split; [| split; [| split; [| split; [| split; [| split]]]]].
  - rewrite run_bind.
    destruct (actor_dict !! "x") as [sx|]; [| reflexivity].
    change (ret sx tr) with (Ok sx, tr). cbv beta iota.
    rewrite run_bind. destruct (float sx) as [qx|]; [| reflexivity].
    rewrite run_bind.
    destruct (actor_dict !! "y") as [sy|]; [| reflexivity].
    change (ret sy tr) with (Ok sy, tr). cbv beta iota.
    rewrite run_bind. destruct (float sy) as [qy|]; [| reflexivity].
    rewrite run_bind.
    destruct (actor_dict !! "z") as [sz|]; [| reflexivity].
    change (ret sz tr) with (Ok sz, tr). cbv beta iota.
    rewrite run_bind. destruct (float sz) as [qz|]; reflexivity.
  - intros Hx. rewrite Hx. reflexivity.
  - intros sx e Hx Hfx. rewrite Hx, run_bind.
    change (ret sx tr) with (Ok sx, tr). cbv beta iota.
    rewrite run_bind, Hfx. reflexivity.
  - intros sx qx Hx Hfx Hy. rewrite Hx, Hy, run_bind.
    change (ret sx tr) with (Ok sx, tr). cbv beta iota.
    rewrite run_bind, Hfx. reflexivity.
  - intros sx qx sy e Hx Hfx Hy Hfy. rewrite Hx, Hy, run_bind.
    change (ret sx tr) with (Ok sx, tr). cbv beta iota.
    rewrite run_bind, Hfx, run_bind.
    change (ret sy tr) with (Ok sy, tr). cbv beta iota.
    rewrite run_bind, Hfy. reflexivity.
  - intros sx qx sy qy Hx Hfx Hy Hfy Hz. rewrite Hx, Hy, Hz, run_bind.
    change (ret sx tr) with (Ok sx, tr). cbv beta iota.
    rewrite run_bind, Hfx, run_bind.
    change (ret sy tr) with (Ok sy, tr). cbv beta iota.
    rewrite run_bind, Hfy. reflexivity.
  - intros sx qx sy qy sz e Hx Hfx Hy Hfy Hz Hfz.
    rewrite Hx, Hy, Hz, run_bind.
    change (ret sx tr) with (Ok sx, tr). cbv beta iota.
    rewrite run_bind, Hfx, run_bind.
    change (ret sy tr) with (Ok sy, tr). cbv beta iota.
    rewrite run_bind, Hfy, run_bind.
    change (ret sz tr) with (Ok sz, tr). cbv beta iota.
    rewrite run_bind, Hfz. reflexivity.
Qed.

End MoreSetup.

(** ** More on [_initialize_actors] *)

Section MoreActors.

Context `{Simulator}.

(** Every run, with its result and trace named. *)
Lemma _initialize_actors_cases self cfg tr r tr' :
  _initialize_actors self cfg tr = (r, tr') ->
  initialize_actors_run self tr r tr'.
Proof.
  intros Hrun. pose proof (_initialize_actors_run self cfg tr) as Hcase.
  rewrite Hrun in Hcase. exact Hcase.
Qed.

(** X10. A successful [_initialize_actors] changes nothing of the object
    but [other_actors] and [_ego_transform]: distances, side, waypoints,
    ego vehicles and route mode stay, and the actors that were in
    [other_actors] before are still its first elements. *)
Theorem initialize_actors_keeps_other_attributes
    (self self' : ParkingExit) (cfg : ScenarioConfiguration)
    (tr tr' : Trace) :
  _initialize_actors self cfg tr = (Ok self', tr') ->
  timeout self' = timeout self /\
  _front_vehicle_distance self' = _front_vehicle_distance self /\
  _behind_vehicle_distance self' = _behind_vehicle_distance self /\
  _end_distance self' = _end_distance self /\
  _parking_lane_side self' = _parking_lane_side self /\
  _trigger_location self' = _trigger_location self /\
  _reference_waypoint self' = _reference_waypoint self /\
  _parking_waypoint self' = _parking_waypoint self /\
  ego_vehicles self' = ego_vehicles self /\
  route_mode self' = route_mode self /\
  take (length (other_actors self)) (other_actors self') = other_actors self.
Proof.
  intros Hrun.
  destruct (_initialize_actors_Ok _ _ _ _ _ Hrun)
    as (fp & fps & bp & bps & af & ab & ego & egos & lf & lb & le
        & _ & _ & _ & _ & _ & _ & _ & ->).
  cbn. repeat split. apply take_app_length.
Qed.

(** X11. Whether it succeeds or raises, [_initialize_actors] only adds
    calls to the trace, at most five, and it only moves actors that the
    simulator granted to one of its own requests, or the first ego
    vehicle. *)
Theorem initialize_actors_moves_only_its_actors
    (self : ParkingExit) (cfg : ScenarioConfiguration) (tr tr' : Trace)
    (r : Result ParkingExit) :
  _initialize_actors self cfg tr = (r, tr') ->
  exists calls,
    tr' = tr ++ calls /\ (length calls <= 5)%nat /\
    forall a, In a (moved calls) ->
      In a (granted calls) \/ head (ego_vehicles self) = Some a.
Proof.
  intros Hrun. apply _initialize_actors_cases in Hrun.
  inversion Hrun as
    [ Hn | fp fps Hn Hf | fp fps af lf Hn Hf Hlf Hp
    | fp fps af lf bp bps Hn Hf Hlf Hp Hb
    | fp fps af lf bp bps ab lb Hn Hf Hlf Hp Hb Hlb He
    | fp fps af lf bp bps ab lb ego egos le Hn Hf Hlf Hp Hb Hlb He Hle ];
    subst.
  - exists []. rewrite app_nil_r. split; [reflexivity |].
    split; [cbn; lia |]. intros a [].
  - eexists. split; [reflexivity |]. split; [cbn; lia |]. intros a [].
  - eexists. split; [reflexivity |]. split; [cbn; lia |].
    cbn. intros a [<- | []]. left. left. reflexivity.
  - eexists. split; [reflexivity |]. split; [cbn; lia |].
    cbn. intros a [<- | []]. left. left. reflexivity.
  - eexists. split; [reflexivity |]. split; [cbn; lia |].
    cbn. intros a [<- | [<- | []]]; left; [left | right; left]; reflexivity.
  - eexists. split; [reflexivity |]. split; [cbn; lia |].
    cbn. intros a [<- | [<- | [<- | []]]].
    + left. left. reflexivity.
    + left. right. left. reflexivity.
    + right. rewrite He. reflexivity.
Qed.

(** X12. Once the simulator has granted the front vehicle, every run of
    [_initialize_actors], also one that raises afterwards, starts with the
    request for that vehicle, followed at once by the call that moves it
    to its displaced location. *)
Theorem granted_front_vehicle_is_placed
    (self : ParkingExit) (cfg : ScenarioConfiguration) (tr tr' : Trace)
    (r : Result ParkingExit) (fp : carla.Waypoint)
    (fps : list carla.Waypoint) (af : carla.Actor) :
  next (_parking_waypoint self) (_front_vehicle_distance self) = fp :: fps ->
  vehicle_answer tr fp = Some af ->
  _initialize_actors self cfg tr = (r, tr') ->
  exists lf rest,
    returns (_get_displaced_transform self af fp) lf /\
    tr' = tr ++ vehicle_request fp (Some af) :: set_location_call af lf
                :: rest.
Proof.
  intros Hnext Hans Hrun. apply _initialize_actors_cases in Hrun.
  inversion Hrun as
    [ Hn | fp' fps' Hn Hf | fp' fps' af' lf Hn Hf Hlf Hp
    | fp' fps' af' lf bp bps Hn Hf Hlf Hp Hb
    | fp' fps' af' lf bp bps ab lb Hn Hf Hlf Hp Hb Hlb He
    | fp' fps' af' lf bp bps ab lb ego egos le Hn Hf Hlf Hp Hb Hlb He Hle ];
    subst; rewrite Hnext in Hn; try discriminate Hn;
    injection Hn as <- <-; rewrite Hans in Hf; try discriminate Hf;
    injection Hf as <-; exists lf; eexists; (split; [exact Hlf | reflexivity]).
Qed.

(** X9. [_initialize_actors] succeeds exactly when there is a waypoint
    ahead and one behind, the simulator grants both vehicles (the second
    after the first was placed), and there is an ego vehicle. *)
Theorem initialize_actors_succeeds_iff
    (self : ParkingExit) (cfg : ScenarioConfiguration) (tr : Trace) :
  (exists self' tr', _initialize_actors self cfg tr = (Ok self', tr')) <->
  exists fp fps af lf bp bps ab,
    next (_parking_waypoint self) (_front_vehicle_distance self)
      = fp :: fps /\
    vehicle_answer tr fp = Some af /\
    returns (_get_displaced_transform self af fp) lf /\
    previous (_parking_waypoint self) (_behind_vehicle_distance self)
      = bp :: bps /\
    vehicle_answer
      (tr ++ [vehicle_request fp (Some af); set_location_call af lf]) bp
      = Some ab /\
    ego_vehicles self <> [].
Proof.
  split.
  - intros (self' & tr' & Hrun). apply _initialize_actors_cases in Hrun.
    inversion Hrun as
      [ | | | |
      | fp fps af lf bp bps ab lb ego egos le Hn Hf Hlf Hp Hb Hlb He Hle ];
      subst.
    exists fp, fps, af, lf, bp, bps, ab.
    repeat split; try assumption. rewrite He. discriminate.
  - intros (fp & fps & af & lf & bp & bps & ab & Hnext & Hans & Hplace
            & Hprev & Hans' & Hego).
    destruct (_initialize_actors self cfg tr) as [r tr'] eqn:Hrun.
    apply _initialize_actors_cases in Hrun.
    inversion Hrun as
      [ Hn | fp' fps' Hn Hf | fp' fps' af' lf' Hn Hf Hlf Hp
      | fp' fps' af' lf' bp' bps' Hn Hf Hlf Hp Hb
      | fp' fps' af' lf' bp' bps' ab' lb Hn Hf Hlf Hp Hb Hlb He
      | fp' fps' af' lf' bp' bps' ab' lb ego egos le Hn Hf Hlf Hp Hb Hlb
          He Hle ];
      subst; rewrite Hnext in Hn; try discriminate Hn;
      injection Hn as <- <-; rewrite Hans in Hf; try discriminate Hf;
      injection Hf as <-;
      pose proof (returns_inj _ _ _ Hlf Hplace) as ->;
      rewrite Hprev in Hp; try discriminate Hp;
      injection Hp as <- <-; rewrite Hans' in Hb; try discriminate Hb.
    + contradiction.
    + eexists _, _. reflexivity.
Qed.

(** X13. Without an ego vehicle [_initialize_actors] always raises; the
    ego vehicles are looked at last, so when both vehicles are granted the
    exception is [IndexError], raised after both were spawned and
    placed. *)
Theorem initialize_actors_without_ego_vehicle
    (self : ParkingExit) (cfg : ScenarioConfiguration) (tr tr' : Trace)
    (r : Result ParkingExit) :
  ego_vehicles self = [] ->
  _initialize_actors self cfg tr = (r, tr') ->
  (exists e, r = Raise e) /\
  (forall fp fps af lf bp bps ab lb,
     next (_parking_waypoint self) (_front_vehicle_distance self)
       = fp :: fps ->
     vehicle_answer tr fp = Some af ->
     returns (_get_displaced_transform self af fp) lf ->
     previous (_parking_waypoint self) (_behind_vehicle_distance self)
       = bp :: bps ->
     vehicle_answer
       (tr ++ [vehicle_request fp (Some af); set_location_call af lf]) bp
       = Some ab ->
     returns (_get_displaced_transform self ab bp) lb ->
     r = Raise (IndexError "list index out of range") /\
     tr' = tr ++ [vehicle_request fp (Some af); set_location_call af lf;
                  vehicle_request bp (Some ab); set_location_call ab lb]).
Proof.
  intros Hego Hrun. apply _initialize_actors_cases in Hrun.
  inversion Hrun as
    [ Hn | fp' fps' Hn Hf | fp' fps' af' lf' Hn Hf Hlf Hp
    | fp' fps' af' lf' bp' bps' Hn Hf Hlf Hp Hb
    | fp' fps' af' lf' bp' bps' ab' lb' Hn Hf Hlf Hp Hb Hlb He
    | fp' fps' af' lf' bp' bps' ab' lb' ego egos le Hn Hf Hlf Hp Hb Hlb
        He Hle ];
    subst;
    try (rewrite Hego in He; discriminate He);
    (split; [eexists; reflexivity |]);
    intros fp fps af lf bp bps ab lb Hnext Hans Hplace Hprev Hans' Hplace';
    rewrite Hnext in Hn; try discriminate Hn;
    injection Hn as <- <-; rewrite Hans in Hf; try discriminate Hf;
    injection Hf as <-;
    pose proof (returns_inj _ _ _ Hlf Hplace) as ->;
    rewrite Hprev in Hp; try discriminate Hp;
    injection Hp as <- <-; rewrite Hans' in Hb; try discriminate Hb.
  injection Hb as <-.
  pose proof (returns_inj _ _ _ Hlb Hplace') as ->.
  split; reflexivity.
Qed.

End MoreActors.

(** ** More on the behaviour tree and the criteria *)

Section MoreBehaviour.

Context `{Simulator}.

(** X14. [_create_behavior] raises exactly when there is no ego vehicle,
    and [_create_test_criteria] exactly when there is none outside route
    mode; the exception is [IndexError], and no simulator call is made. *)
Theorem behaviour_and_criteria_raise_iff_no_ego_vehicle
    (self : ParkingExit) (tr : Trace) :
  (raises (_create_behavior self) tr <-> ego_vehicles self = []) /\
  (raises (_create_test_criteria self) tr <->
   route_mode self = false /\ ego_vehicles self = []) /\
  (ego_vehicles self = [] ->
   _create_behavior self tr
   = (Raise (IndexError "list index out of range"), tr)) /\
  (ego_vehicles self = [] -> route_mode self = false ->
   _create_test_criteria self tr
   = (Raise (IndexError "list index out of range"), tr)).
Proof.
  unfold raises, _create_behavior, _create_test_criteria.
  destruct (ego_vehicles self) as [|ego egos];
    destruct (route_mode self); rewrite ?run_bind; cbn [first];
    cbv [raise ret]; cbv beta iota;
    (split; [| split; [| split]]);
    try (split; [intros (e & tr' & Heq); try discriminate Heq
                | first [intros [Hr He]; discriminate
                        | intros He; discriminate
                        | intros _; eexists _, _; reflexivity]]);
    try (intros; first [reflexivity | discriminate]);
    try reflexivity; try (split; reflexivity).
Qed.

(** X15. The behaviour tree has three children followed by one
    [ActorDestroy] per entry of [other_actors]: an actor is destroyed at
    the end of the scenario exactly when it is in [other_actors], so the
    ego vehicle is not, unless it is listed there. *)
Theorem create_behavior_destroys_exactly_other_actors
    (self : ParkingExit) (ego : carla.Actor) (egos : list carla.Actor) :
  ego_vehicles self = ego :: egos ->
  exists b,
    returns (_create_behavior self) b /\
    length (children b) = (3 + length (other_actors self))%nat /\
    (forall a, In (ActorDestroy a) (children b) <-> In a (other_actors self))
    /\
    drop 3 (children b) = map ActorDestroy (other_actors self).
Proof.
  intros Hego. eexists. split; [apply (_create_behavior_returns self ego egos Hego) |].
  cbn [children app].
  split; [cbn; rewrite length_map; reflexivity |].
  split; [| reflexivity].
  intros a. cbn. split.
  - intros [Hd | [Hd | [Hd | Hin]]]; try discriminate Hd.
    apply in_map_iff in Hin as (a' & Heq & Hin). injection Heq as ->.
    exact Hin.
  - intros Hin. right. right. right. apply in_map. exact Hin.
Qed.

(** X16. After a successful [_initialize_actors], [_create_behavior] and
    [_create_test_criteria] both return: the ego vehicle they index has
    been found to exist. *)
Theorem behaviour_and_criteria_after_initialize_actors
    (self self' : ParkingExit) (cfg : ScenarioConfiguration)
    (tr tr' : Trace) :
  _initialize_actors self cfg tr = (Ok self', tr') ->
  (exists b, returns (_create_behavior self') b) /\
  (exists c, returns (_create_test_criteria self') c).
Proof.
  intros Hrun.
  destruct (_initialize_actors_Ok _ _ _ _ _ Hrun)
    as (fp & fps & bp & bps & af & ab & ego & egos & lf & lb & le
        & _ & _ & He & _ & _ & _ & _ & ->).
  split.
  - eexists. apply (_create_behavior_returns _ ego egos). exact He.
  - unfold _create_test_criteria.
    cbn [route_mode ego_vehicles set__ego_transform set_other_actors].
    rewrite He. destruct (route_mode self); eexists; intros t; reflexivity.
Qed.

End MoreBehaviour.

(** ** The further theorems on the sample road *)

Lemma convert_dict_to_location_returns_iff_witness :
  returns (@convert_dict_to_location Town.sim Town.spot)
    (carla.mkVector3D 30 8 30).
Proof.
  apply (proj2 (@convert_dict_to_location_returns_iff Town.sim Town.spot
                  (carla.mkVector3D 30 8 30))).
  exists "30", "8", "30". repeat split; reflexivity.
Defined.

Lemma convert_dict_to_location_first_failure_witness :
  @convert_dict_to_location Town.sim Town.spot_without_y []
  = (Raise (KeyError "y"), []) /\
  @convert_dict_to_location Town.sim Town.spot_with_bad_z []
  = (Raise (ValueError "could not convert string to float: up"), []).
Proof.
  split.
  - destruct (@convert_dict_to_location_first_failure Town.sim
                Town.spot_without_y [])
      as (_ & _ & _ & Hy & _).
    apply (Hy "30" 30%Q); reflexivity.
  - destruct (@convert_dict_to_location_first_failure Town.sim
                Town.spot_with_bad_z [])
      as (_ & _ & _ & _ & _ & _ & Hz).
    apply (Hz "30" 30%Q "8" 8%Q "up"); reflexivity.
Defined.

Lemma constructor_builds_iff_readable_and_lane_witness :
  @init_attributes Town.sim Town.config_right 180 []
  = (Ok (@built Town.sim 180 30 8 "right" Town.origin
           (_parking_waypoint (Town.parked "right" [] [] false))), []).
Proof.
  apply (proj2 (@constructor_builds_iff_readable_and_lane Town.sim
                  Town.config_right 180 [] [] _)).
  split; [reflexivity |].
  exists 30%Q, 8%Q, "right", Town.origin, [],
    (_parking_waypoint (Town.parked "right" [] [] false)).
  split; [exists "30"; split; reflexivity |].
  split; [exists "8"; split; reflexivity |].
  repeat split; reflexivity.
Defined.

Lemma constructor_raises_on_unreadable_configuration_witness :
  @__init__ Town.sim (@BasicScenario__init__ Town.sim) [Town.ego]
    Town.config_no_value false true 180 []
  = (Raise (KeyError "value"), []).
Proof.
  apply (proj1 (@constructor_raises_on_unreadable_configuration Town.sim
                  (@BasicScenario__init__ Town.sim) [Town.ego]
                  Town.config_no_value false true 180 [])).
  exists ∅. split; reflexivity.
Defined.

Lemma displaced_left_and_right_mirror_witness :
  exists l r : carla.Location,
    returns (@_get_displaced_transform Town.sim
               (Town.parked "left" [Town.ego] [] false) Town.ego
               (_parking_waypoint (Town.parked "left" [Town.ego] [] false)))
            l /\
    returns (@_get_displaced_transform Town.sim
               (Town.parked "right" [Town.ego] [] false) Town.ego
               (_parking_waypoint (Town.parked "left" [Town.ego] [] false)))
            r /\
    carla.y l + carla.y r == 13 # 2.
Proof.
  destruct (@displaced_left_and_right_mirror Town.sim
              (Town.parked "left" [Town.ego] [] false)
              (Town.parked "right" [Town.ego] [] false) Town.ego
              (_parking_waypoint (Town.parked "left" [Town.ego] [] false)))
    as (l & r & Hl & Hr & _ & Hy & _).
  - reflexivity.
  - discriminate.
  - exists l, r. split; [exact Hl |]. split; [exact Hr |].
    rewrite Hy. reflexivity.
Defined.

Lemma displacement_within_quarter_lane_witness :
  exists loc : carla.Location,
    returns (@_get_displaced_transform Town.sim
               (Town.parked "right" [Town.ego] [] false) Town.ego
               (_parking_waypoint (Town.parked "right" [Town.ego] [] false)))
            loc /\
    (carla.norm2
       (carla.mkVector3D (carla.x loc - 0) (carla.y loc - (13 # 4))
          (carla.z loc - (5 # 100) - 0))
     <= 9 # 16)%Q.
Proof.
  destruct (@displacement_within_quarter_lane Town.sim
              (Town.parked "right" [Town.ego] [] false) Town.ego
              (_parking_waypoint (Town.parked "right" [Town.ego] [] false)))
    as (loc & Hret & Hle).
  - discriminate.
  - discriminate.
  - reflexivity.
  - exists loc. split; [exact Hret |].
    eapply Qle_trans; [| eapply Qle_trans; [exact Hle |]].
    + unfold carla.norm2; cbn. apply Qle_lteq. right. ring.
    + discriminate.
Defined.

Lemma displacement_direction_witness :
  exists loc : carla.Location,
    returns (@_get_displaced_transform Town.sim
               (Town.parked "right" [Town.ego] [] false) Town.ego
               (_parking_waypoint (Town.parked "right" [Town.ego] [] false)))
            loc /\
    (0 < (carla.x loc - 0) * 0 + (carla.y loc - (13 # 4)) * 1
         + (carla.z loc - (5 # 100) - 0) * 0)%Q.
Proof.
  destruct (@displacement_direction Town.sim
              (Town.parked "right" [Town.ego] [] false) Town.ego
              (_parking_waypoint (Town.parked "right" [Town.ego] [] false)))
    as (loc & Hret & Hright & _).
  - reflexivity.
  - exists loc. split; [exact Hret |].
    destruct Hright as (Hpos & _); [discriminate |].
    eapply Qlt_le_trans; [apply Hpos; reflexivity |].
    cbn. apply Qle_lteq. right. ring.
Defined.

Lemma initialize_actors_succeeds_iff_witness :
  exists self' tr',
    @_initialize_actors Town.sim (Town.parked "right" [Town.ego] [] false)
      Town.config_default []
    = (Ok self', tr').
Proof.
  apply (proj2 (@initialize_actors_succeeds_iff Town.sim
                  (Town.parked "right" [Town.ego] [] false)
                  Town.config_default [])).
  destruct (@_get_displaced_transform_returns Town.sim
              (Town.parked "right" [Town.ego] [] false)
              (carla.mkActor 0 Town.car)
              (Town.shifted
                 (_parking_waypoint (Town.parked "right" [Town.ego] [] false))
                 20 0 3))
    as [lf Hlf].
  exists (Town.shifted
            (_parking_waypoint (Town.parked "right" [Town.ego] [] false))
            20 0 3), [], (carla.mkActor 0 Town.car), lf,
    (Town.shifted
       (_parking_waypoint (Town.parked "right" [Town.ego] [] false))
       (- (5)) 0 3), [], (carla.mkActor 2 Town.car).
  split; [reflexivity |]. split; [reflexivity |]. split; [exact Hlf |].
  split; [reflexivity |]. split; [reflexivity | discriminate].
Defined.

(** The sample run of [_initialize_actors] succeeds. *)
Lemma sample_run_succeeds :
  exists self' tr',
    @_initialize_actors Town.sim (Town.parked "right" [Town.ego] [] false)
      Town.config_default []
    = (Ok self', tr').
Proof.
  destruct (@_initialize_actors Town.sim
              (Town.parked "right" [Town.ego] [] false)
              Town.config_default []) as [r tr'] eqn:Hrun.
  vm_compute in Hrun. injection Hrun as <- <-.
  eexists _, _. reflexivity.
Qed.

Lemma initialize_actors_keeps_other_attributes_witness :
  exists self' tr',
    @_initialize_actors Town.sim (Town.parked "right" [Town.ego] [] false)
      Town.config_default []
    = (Ok self', tr') /\
    ego_vehicles self' = [Town.ego] /\ _parking_lane_side self' = "right".
Proof.
  destruct sample_run_succeeds as (self' & tr' & Hrun).
  exists self', tr'. split; [exact Hrun |].
  destruct (@initialize_actors_keeps_other_attributes Town.sim _ _ _ _ _ Hrun)
    as (_ & _ & _ & _ & Hside & _ & _ & _ & Hego & _).
  split; [exact Hego | exact Hside].
Defined.

Lemma initialize_actors_moves_only_its_actors_witness :
  exists self' tr' calls,
    @_initialize_actors Town.sim (Town.parked "right" [Town.ego] [] false)
      Town.config_default []
    = (Ok self', tr') /\
    tr' = calls /\ (length calls <= 5)%nat.
Proof.
  destruct sample_run_succeeds as (self' & tr' & Hrun).
  destruct (@initialize_actors_moves_only_its_actors Town.sim _ _ _ _ _ Hrun)
    as (calls & Htr & Hlen & _).
  exists self', tr', calls. split; [exact Hrun |].
  split; [exact Htr | exact Hlen].
Defined.

Lemma granted_front_vehicle_is_placed_witness :
  exists self' tr' lf rest,
    @_initialize_actors Town.sim (Town.parked "right" [Town.ego] [] false)
      Town.config_default []
    = (Ok self', tr') /\
    tr' = vehicle_request
            (Town.shifted
               (_parking_waypoint (Town.parked "right" [Town.ego] [] false))
               20 0 3)
            (Some (carla.mkActor 0 Town.car))
          :: set_location_call (carla.mkActor 0 Town.car) lf :: rest.
Proof.
  destruct sample_run_succeeds as (self' & tr' & Hrun).
  destruct (@granted_front_vehicle_is_placed Town.sim
              (Town.parked "right" [Town.ego] [] false)
              Town.config_default [] tr' (Ok self')
              (Town.shifted
                 (_parking_waypoint (Town.parked "right" [Town.ego] [] false))
                 20 0 3)
              [] (carla.mkActor 0 Town.car))
    as (lf & rest & _ & Htr).
  - reflexivity.
  - reflexivity.
  - exact Hrun.
  - exists self', tr', lf, rest. split; [exact Hrun | exact Htr].
Defined.

(** Without an ego vehicle the sample run raises. *)
Lemma sample_run_without_ego :
  exists e tr',
    @_initialize_actors Town.sim (Town.parked "right" [] [] false)
      Town.config_default []
    = (Raise e, tr').
Proof.
  destruct (@_initialize_actors Town.sim (Town.parked "right" [] [] false)
              Town.config_default []) as [r tr'] eqn:Hrun.
  vm_compute in Hrun. injection Hrun as <- <-.
  eexists _, _. reflexivity.
Qed.

Lemma initialize_actors_without_ego_vehicle_witness :
  exists tr',
    @_initialize_actors Town.sim (Town.parked "right" [] [] false)
      Town.config_default []
    = (Raise (IndexError "list index out of range"), tr') /\
    length tr' = 4%nat.
Proof.
  destruct sample_run_without_ego as (e & tr' & Hrun).
  destruct (@initialize_actors_without_ego_vehicle Town.sim
              (Town.parked "right" [] [] false) Town.config_default
              [] tr' (Raise e) eq_refl Hrun) as (_ & Hboth).
  destruct (@_get_displaced_transform_returns Town.sim
              (Town.parked "right" [] [] false) (carla.mkActor 0 Town.car)
              (Town.shifted
                 (_parking_waypoint (Town.parked "right" [] [] false))
                 20 0 3))
    as [lf Hlf].
  destruct (@_get_displaced_transform_returns Town.sim
              (Town.parked "right" [] [] false) (carla.mkActor 2 Town.car)
              (Town.shifted
                 (_parking_waypoint (Town.parked "right" [] [] false))
                 (- (5)) 0 3))
    as [lb Hlb].
  destruct (Hboth _ [] _ lf _ [] _ lb eq_refl eq_refl Hlf eq_refl eq_refl Hlb)
    as (He & Htr).
  exists tr'. rewrite Hrun, He, Htr. split; reflexivity.
Defined.

Lemma behaviour_and_criteria_raise_iff_no_ego_vehicle_witness :
  _create_behavior (Town.parked "right" [] [] false) []
  = (Raise (IndexError "list index out of range"), []) /\
  _create_test_criteria (Town.parked "right" [] [] false) []
  = (Raise (IndexError "list index out of range"), []).
Proof.
  destruct (behaviour_and_criteria_raise_iff_no_ego_vehicle
              (Town.parked "right" [] [] false) [])
    as (_ & _ & Hb & Hc).
  split; [apply Hb; reflexivity | apply Hc; reflexivity].
Defined.

Lemma create_behavior_destroys_exactly_other_actors_witness :
  exists b,
    returns (_create_behavior
               (Town.parked "right" [Town.ego]
                  [carla.mkActor 0 Town.car; carla.mkActor 2 Town.car]
                  false)) b /\
    length (children b) = 5%nat /\
    ~ In (ActorDestroy Town.ego) (children b).
Proof.
  destruct (create_behavior_destroys_exactly_other_actors
              (Town.parked "right" [Town.ego]
                 [carla.mkActor 0 Town.car; carla.mkActor 2 Town.car] false)
              Town.ego [] eq_refl)
    as (b & Hret & Hlen & Hin & _).
  exists b. split; [exact Hret |]. split; [exact Hlen |].
  intros Hd. apply Hin in Hd. destruct Hd as [Hd | [Hd | []]]; discriminate Hd.
Defined.

Lemma behaviour_and_criteria_after_initialize_actors_witness :
  exists self' tr' b c,
    @_initialize_actors Town.sim (Town.parked "right" [Town.ego] [] false)
      Town.config_default []
    = (Ok self', tr') /\
    returns (_create_behavior self') b /\
    returns (_create_test_criteria self') c.
Proof.
  destruct sample_run_succeeds as (self' & tr' & Hrun).
  destruct (@behaviour_and_criteria_after_initialize_actors Town.sim _ _ _ _ _
              Hrun) as ((b & Hb) & (c & Hc)).
  exists self', tr', b, c. split; [exact Hrun |]. split; assumption.
Defined.
